(** * Pharmacy inventory and point of sale: stock allocation and sale processing

    A shallow embedding of the stock-handling core of the application:

    - [types.ts]                      the entity records;
    - [database/index.ts]             the Dexie tables ([DB]);
    - [services/fefo.ts]              [FEFOService.selectBatchesForSale];
    - [services/scheduleH1.ts]        [ScheduleH1Service.addEntry];
    - [store/index.ts]                the cart ([addToCart], [removeFromCart], ...);
    - [components/Sales/SalesModule.tsx]
                                      [handleAddToCart], [updateQuantity],
                                      [calculateTotals], [processSale];
    - [components/Inventory/LowStockPage.tsx]
                                      [handleDeleteMedicine];
    - [components/Inventory/RestockPage.tsx]
                                      the restock form's [onSubmit].

    Conventions.  Stock counts and quantities are JavaScript numbers that
    the program only ever produces from [parseInt] and integer arithmetic:
    they are modelled as [Z].  Money is a JavaScript number that may be
    [NaN]: see [JS.number].  A [Date] is its [valueOf], the milliseconds
    since the epoch, a [Z]; the clock is read from an explicit environment.
    The Dexie tables are total: a rejected IndexedDB request is outside the
    model, so the only exceptions are the ones the program throws itself. *)

From Stdlib Require Import ZArith QArith.
From stdpp Require Import gmap strings list fin_maps sorting pretty.

Open Scope Z_scope.

(** ** JavaScript values that the pricing code computes with *)

Module JS.

(** A number is a rational or NaN.  The rationals stand for the finite
    doubles with their rounding left out; the infinities and the negative
    zero are not represented.  The development uses numbers to tell an
    amount that is NaN, because an operand was [undefined], from one that
    is not, and for the figures of one concrete sale; it states no identity
    between sums and products of amounts, which the rounded doubles need
    not satisfy. *)
Inductive number : Type :=
| Num (x : Q)
| NaN.

(** The result of a property read: the property's number, or [undefined]
    when the object has no such property. *)
Inductive value : Type :=
| undefined
| VNum (n : number).

(** ToNumber: [undefined] converts to NaN. *)
Definition ToNumber (v : value) : number :=
  match v with
  | undefined => NaN
  | VNum n => n
  end.

Definition ofZ (z : Z) : number := Num (inject_Z z).

Definition lift2 (op : Q -> Q -> Q) (a b : number) : number :=
  match a, b with
  | Num x, Num y => Num (op x y)
  | _, _ => NaN
  end.

Definition add : number -> number -> number := lift2 Qplus.
Definition sub : number -> number -> number := lift2 Qminus.
Definition mul : number -> number -> number := lift2 Qmult.

(** Division: the program only divides by the literal 100. *)
Definition div (a b : number) : number :=
  match a, b with
  | Num x, Num y => if Qeq_bool y 0 then NaN else Num (Qdiv x y)
  | _, _ => NaN
  end.

(** Numeric equality of two numbers; NaN equals nothing. *)
Definition eqn (a b : number) : Prop :=
  match a, b with
  | Num x, Num y => Qeq x y
  | _, _ => False
  end.

(** [z.number().min(0)]: a number, not NaN, that is at least 0. *)
Definition nonneg (a : number) : bool :=
  match a with
  | Num x => Qle_bool 0 x
  | NaN => false
  end.

(** [s || d] on strings: the empty string is falsy. *)
Definition or_string (s d : string) : string :=
  if bool_decide (s = "") then d else s.

(** [q || d] on an optional number field: [undefined] and 0 are falsy. *)
Definition or_Z (q : option Z) (d : Z) : Z :=
  match q with
  | Some n => if n =? 0 then d else n
  | None => d
  end.

End JS.

(** ** Entities ([types.ts]) *)

Definition Date : Type := Z.

Module Schedule.
Inductive t : Type := H | H1 | X | GENERAL.

Definition eqb (a b : t) : bool :=
  match a, b with
  | H, H | H1, H1 | X, X | GENERAL, GENERAL => true
  | _, _ => false
  end.
End Schedule.

Inductive PaymentMethod : Type := CASH | CARD | UPI | CREDIT.

Module Medicine.
Record t : Type := mk {
  id : string;
  name : string;
  genericName : option string;
  brandName : string;
  dosage : option string;
  medicineType : option string;
  manufacturer : string;
  scheduleType : Schedule.t;
  hsn : string;
  gst : JS.number;
  description : option string;
  createdAt : Date;
  updatedAt : Date
}.
End Medicine.

Module Batch.
Record t : Type := mk {
  id : string;
  medicineId : string;
  batchNumber : string;
  expiryDate : Date;
  mrp : JS.number;
  purchasePrice : JS.number;
  sellingPrice : JS.number;
  currentStock : Z;
  minStock : Z;
  maxStock : Z;
  supplierId : string;
  receivedDate : Date;
  quantityToDispense : option Z
}.

(** [{...batch, quantityToDispense: q}] *)
Definition withQuantityToDispense (q : Z) (b : t) : t :=
  mk (id b) (medicineId b) (batchNumber b) (expiryDate b) (mrp b)
     (purchasePrice b) (sellingPrice b) (currentStock b) (minStock b)
     (maxStock b) (supplierId b) (receivedDate b) (Some q).

(** The row after [update(key, {currentStock: n})]. *)
Definition withCurrentStock (n : Z) (b : t) : t :=
  mk (id b) (medicineId b) (batchNumber b) (expiryDate b) (mrp b)
     (purchasePrice b) (sellingPrice b) n (minStock b)
     (maxStock b) (supplierId b) (receivedDate b) (quantityToDispense b).
End Batch.

Module SaleItem.
Record t : Type := mk {
  id : string;
  medicineId : string;
  medicineName : string;
  batchId : string;
  batchNumber : string;
  quantity : Z;
  unitPrice : JS.number;
  totalPrice : JS.number;
  gstAmount : JS.number
}.
End SaleItem.

Module Sale.
Record t : Type := mk {
  id : string;
  invoiceNumber : string;
  customerName : option string;
  customerPhone : option string;
  prescriptionId : option string;
  items : list SaleItem.t;
  totalAmount : JS.number;
  gstAmount : JS.number;
  discountAmount : JS.number;
  paymentMethod : PaymentMethod;
  saleDate : Date;
  pharmacistId : string
}.
End Sale.

Module ScheduleH1Entry.
Record t : Type := mk {
  id : string;
  medicineId : string;
  medicineName : string;
  batchNumber : string;
  customerName : string;
  doctorName : string;
  prescriptionNumber : string;
  quantityDispensed : Z;
  dispensedDate : Date;
  pharmacistSignature : string
}.
End ScheduleH1Entry.

(** ** The environment: clock and [crypto.randomUUID] *)

Record Env : Type := {
  now : Date;
  randomUUID : nat -> string
}.

(** ** The record store ([database/index.ts]) *)

(** [medicines] and [batches] are keyed by their primary key [id].  [sales]
    and [scheduleH1Entries] only ever receive [add] of a row with a fresh
    UUID: they are the rows in insertion order. *)
Record DB : Type := {
  medicines : gmap string Medicine.t;
  batches : gmap string Batch.t;
  sales : list Sale.t;
  scheduleH1Entries : list ScheduleH1Entry.t
}.

Definition set_batches (bs : gmap string Batch.t) (d : DB) : DB :=
  {| medicines := medicines d; batches := bs; sales := sales d;
     scheduleH1Entries := scheduleH1Entries d |}.

Definition set_medicines (ms : gmap string Medicine.t) (d : DB) : DB :=
  {| medicines := ms; batches := batches d; sales := sales d;
     scheduleH1Entries := scheduleH1Entries d |}.

Definition add_sale (s : Sale.t) (d : DB) : DB :=
  {| medicines := medicines d; batches := batches d; sales := sales d ++ [s];
     scheduleH1Entries := scheduleH1Entries d |}.

Definition set_scheduleH1Entries (es : list ScheduleH1Entry.t) (d : DB) : DB :=
  {| medicines := medicines d; batches := batches d; sales := sales d;
     scheduleH1Entries := es |}.

(** *** Stable sorting, as [Array.prototype.sort] with a comparator *)

Section StableSort.
Context {A : Type} (le : A -> A -> bool).

Fixpoint insert_sorted (x : A) (l : list A) : list A :=
  match l with
  | [] => [x]
  | y :: l' => if le x y then x :: y :: l' else y :: insert_sorted x l'
  end.

(** Each element goes in front of the already sorted later elements, and
    in front of those it is not greater than: equal keys keep their
    order. *)
Fixpoint stable_sort (l : list A) : list A :=
  match l with
  | [] => []
  | x :: l' => insert_sorted x (stable_sort l')
  end.
End StableSort.

(** The rows of a table in primary-key order, the order of a Dexie
    collection before any [sortBy]. *)
Definition rows {V : Type} (m : gmap string V) : list V :=
  snd <$> stable_sort (fun a b => String.leb (fst a) (fst b)) (map_to_list m).

(** [db.batches.where('medicineId').equals(medicineId)] *)
Definition where_medicineId_equals (medicineId : string)
    (bs : gmap string Batch.t) : list Batch.t :=
  List.filter (fun b => bool_decide (Batch.medicineId b = medicineId)) (rows bs).

(** [.sortBy('expiryDate')] *)
Definition sortBy_expiryDate (l : list Batch.t) : list Batch.t :=
  stable_sort (fun a b => Batch.expiryDate a <=? Batch.expiryDate b) l.

(** ** Results of operations that may throw *)

Inductive Error : Type := mkError (message : string).

Inductive Result (A : Type) : Type :=
| Ok (a : A)
| Throw (e : Error).
Arguments Ok {A} a.
Arguments Throw {A} e.

(** A computation over the record store. *)
Definition Dexie (A : Type) : Type := DB -> Result A * DB.

Global Instance Dexie_ret : MRet Dexie := fun A a d => (Ok a, d).

Global Instance Dexie_bind : MBind Dexie := fun A B k m d =>
  match m d with
  | (Ok a, d') => k a d'
  | (Throw e, d') => (Throw e, d')
  end.

Definition throw {A} (e : Error) : Dexie A := fun d => (Throw e, d).

(** A query: it reads the store and leaves it as it is. *)
Definition read {A} (q : DB -> A) : Dexie A := fun d => (Ok (q d), d).

(** ** The batch allocation engine ([services/fefo.ts]) *)

(** The filter of the candidate query: stock on hand and not yet expired. *)
Definition sellable (now : Date) (batch : Batch.t) : bool :=
  (0 <? Batch.currentStock batch) && (now <? Batch.expiryDate batch).

(** The query of lines 9-13. *)
Definition candidates (now : Date) (medicineId : string) (d : DB) : list Batch.t :=
  sortBy_expiryDate
    (List.filter (sellable now) (where_medicineId_equals medicineId (batches d))).

(** [new Error(`Insufficient stock. Need ${remainingQuantity} more units.`)] *)
Definition InsufficientStock (remainingQuantity : Z) : Error :=
  mkError ("Insufficient stock. Need " +:+ pretty remainingQuantity +:+ " more units.").

(** The loop of lines 18-27, from the state [(selectedBatches,
    remainingQuantity)] over the batches still to visit. *)
Fixpoint allocate (batches : list Batch.t) (selectedBatches : list Batch.t)
    (remainingQuantity : Z) : list Batch.t * Z :=
  match batches with
  | [] => (selectedBatches, remainingQuantity)
  | batch :: rest =>
      if remainingQuantity <=? 0 then (selectedBatches, remainingQuantity)
      else
        let quantityFromBatch := Z.min remainingQuantity (Batch.currentStock batch) in
        allocate rest
          (selectedBatches ++ [Batch.withQuantityToDispense quantityFromBatch batch])
          (remainingQuantity - quantityFromBatch)
  end.

Definition selectBatchesForSale (now : Date) (medicineId : string) (quantity : Z)
    : Dexie (list Batch.t) :=
  batches ← read (candidates now medicineId);
  let '(selectedBatches, remainingQuantity) := allocate batches [] quantity in
  if 0 <? remainingQuantity then throw (InsufficientStock remainingQuantity)
  else mret selectedBatches.

(** The stock a request can draw on: the sum over the candidates, as
    [HeaderSearch.tsx] computes the stock it displays. *)
Definition totalStock (l : list Batch.t) : Z :=
  foldl (fun total batch => total + Batch.currentStock batch) 0 l.

(** A batch of the medicine that can be sold at the moment [now]. *)
Definition eligible (now : Date) (medicineId : string) (batch : Batch.t) : bool :=
  bool_decide (Batch.medicineId batch = medicineId)
  && (0 <? Batch.currentStock batch) && (now <? Batch.expiryDate batch).

(** The combined stock of the eligible batches, summed over the table
    without reference to the query of the allocation engine. *)
Definition available (now : Date) (medicineId : string) (d : DB) : Z :=
  map_fold (λ _ batch acc,
              if eligible now medicineId batch then Batch.currentStock batch + acc
              else acc)
           0 (batches d).

(** The sum of the quantities a selection proposes. *)
Definition dispensed (l : list Batch.t) : Z :=
  foldl (fun total batch => total + JS.or_Z (Batch.quantityToDispense batch) 0) 0 l.

(** ** The cart and the notifications ([store/index.ts]) *)

Module CartItem.
Record t : Type := mk {
  medicine : Medicine.t;
  batch : Batch.t;
  quantity : Z
}.

(** [{...item, quantity: q}] *)
Definition withQuantity (q : Z) (item : t) : t :=
  mk (medicine item) (batch item) q.

(** [item.totalPrice]: a cart item is only ever built as
    [{ medicine, batch, quantity }] or as a copy of one with another
    [quantity], so it has no such property and the read is [undefined]. *)
Definition totalPrice (item : t) : JS.value := JS.undefined.
End CartItem.

Inductive NotificationType : Type := success | error | warning | info.

Module Notification.
Record t : Type := mk {
  id : string;
  type : NotificationType;
  message : string;
  timestamp : Date
}.
End Notification.

Record PharmacyStore : Type := {
  sidebarOpen : bool;
  cartItems : list CartItem.t;
  notifications : list Notification.t
}.

Definition set_cartItems (c : list CartItem.t) (s : PharmacyStore) : PharmacyStore :=
  {| sidebarOpen := sidebarOpen s; cartItems := c; notifications := notifications s |}.

(** The test both [find] and [map] apply to a cart line. *)
Definition isLine (medicineId batchId : string) (item : CartItem.t) : bool :=
  bool_decide (Medicine.id (CartItem.medicine item) = medicineId)
  && bool_decide (Batch.id (CartItem.batch item) = batchId).

Definition addToCart (medicine : Medicine.t) (batch : Batch.t) (quantity : Z)
    (s : PharmacyStore) : PharmacyStore :=
  match List.find (isLine (Medicine.id medicine) (Batch.id batch)) (cartItems s) with
  | Some existingItem =>
      set_cartItems
        (List.map (fun item =>
           if isLine (Medicine.id medicine) (Batch.id batch) item
           then CartItem.withQuantity (CartItem.quantity item + quantity) item
           else item) (cartItems s)) s
  | None =>
      set_cartItems (cartItems s ++ [CartItem.mk medicine batch quantity]) s
  end.

Definition removeFromCart (medicineId batchId : string) (s : PharmacyStore)
    : PharmacyStore :=
  set_cartItems
    (List.filter (fun item => negb (isLine medicineId batchId item)) (cartItems s)) s.

Definition updateCartQuantity (medicineId batchId : string) (quantity : Z)
    (s : PharmacyStore) : PharmacyStore :=
  set_cartItems
    (List.map (fun item =>
       if isLine medicineId batchId item then CartItem.withQuantity quantity item
       else item) (cartItems s)) s.

Definition clearCart (s : PharmacyStore) : PharmacyStore := set_cartItems [] s.

(** ** The application state *)

(** The state of the sales page ([useState] of [SalesModule]).  A completed
    sale item [{ medicine, quantitySold, batch }] is kept as the cart line
    it copies. *)
Record SalesForm : Type := {
  customerName : string;
  customerPhone : string;
  prescriptionNumber : string;
  doctorName : string;
  paymentMethod : PaymentMethod;
  discount : JS.number;
  processing : bool;
  showRestockPrompt : bool;
  completedSaleItems : list CartItem.t
}.

Definition initialSalesForm : SalesForm :=
  {| customerName := ""; customerPhone := ""; prescriptionNumber := "";
     doctorName := ""; paymentMethod := CASH; discount := JS.ofZ 0;
     processing := false; showRestockPrompt := false; completedSaleItems := [] |}.

(** [uuidsDrawn] counts the calls of [crypto.randomUUID] so far: the next
    call returns [randomUUID env (uuidsDrawn w)]. *)
Record World : Type := {
  db : DB;
  store : PharmacyStore;
  form : SalesForm;
  uuidsDrawn : nat
}.

Definition set_db (d : DB) (w : World) : World :=
  {| db := d; store := store w; form := form w; uuidsDrawn := uuidsDrawn w |}.

Definition set_store (s : PharmacyStore) (w : World) : World :=
  {| db := db w; store := s; form := form w; uuidsDrawn := uuidsDrawn w |}.

Definition set_form (f : SalesForm) (w : World) : World :=
  {| db := db w; store := store w; form := f; uuidsDrawn := uuidsDrawn w |}.

Definition set_uuidsDrawn (n : nat) (w : World) : World :=
  {| db := db w; store := store w; form := form w; uuidsDrawn := n |}.

(** [addNotification]; the removal it schedules five seconds later is not
    modelled. *)
Definition addNotification (env : Env) (type : NotificationType) (message : string)
    (w : World) : World :=
  let notification :=
    Notification.mk (randomUUID env (uuidsDrawn w)) type message (now env) in
  set_uuidsDrawn (S (uuidsDrawn w))
    (set_store
       {| sidebarOpen := sidebarOpen (store w);
          cartItems := cartItems (store w);
          notifications := notifications (store w) ++ [notification] |} w).

(** ** The sales page ([SalesModule.tsx]) *)

Definition handleAddToCart (env : Env) (medicine : Medicine.t) (requestedQuantity : Z)
    (w : World) : World :=
  match selectBatchesForSale (now env) (Medicine.id medicine) requestedQuantity (db w) with
  | (Ok selectedBatches, d) =>
      let w1 :=
        foldl (fun w' batch =>
                 set_store
                   (addToCart medicine batch
                      (JS.or_Z (Batch.quantityToDispense batch) 0) (store w')) w')
              (set_db d w) selectedBatches in
      addNotification env success
        ("Added " +:+ Medicine.brandName medicine +:+ " to cart") w1
  | (Throw (mkError message), d) =>
      addNotification env error message (set_db d w)
  end.

Definition updateQuantity (medicineId batchId : string) (newQuantity : Z)
    (w : World) : World :=
  if newQuantity <=? 0 then set_store (removeFromCart medicineId batchId (store w)) w
  else
    match List.find (isLine medicineId batchId) (cartItems (store w)) with
    | Some item =>
        set_store
          (addToCart (CartItem.medicine item) (CartItem.batch item) newQuantity
             (removeFromCart medicineId batchId (store w))) w
    | None => w
    end.

Record Totals : Type := {
  subtotal : JS.number;
  discountAmount : JS.number;
  gstAmount : JS.number;
  total : JS.number
}.

(** [item.quantity * item.batch.sellingPrice] *)
Definition lineSubtotal (item : CartItem.t) : JS.number :=
  JS.mul (JS.ofZ (CartItem.quantity item)) (Batch.sellingPrice (CartItem.batch item)).

(** The summand of the second [reduce] of [calculateTotals]: the tax on
    one line after that line's share of the discount. *)
Definition lineGst (discount : JS.number) (item : CartItem.t) : JS.number :=
  let itemTotal :=
    JS.sub (lineSubtotal item)
           (JS.div (JS.mul (lineSubtotal item) discount) (JS.ofZ 100)) in
  JS.div (JS.mul itemTotal (Medicine.gst (CartItem.medicine item))) (JS.ofZ 100).

Definition calculateTotals (cartItems : list CartItem.t) (discount : JS.number)
    : Totals :=
  let subtotal := foldl (fun sum item => JS.add sum (lineSubtotal item)) (JS.ofZ 0) cartItems in
  let discountAmount := JS.div (JS.mul subtotal discount) (JS.ofZ 100) in
  let gstAmount := foldl (fun sum item => JS.add sum (lineGst discount item)) (JS.ofZ 0) cartItems in
  let total := JS.add (JS.sub subtotal discountAmount) gstAmount in
  {| subtotal := subtotal; discountAmount := discountAmount;
     gstAmount := gstAmount; total := total |}.

(** The object literal of lines 108-118, for the cart line [item]. *)
Definition saleItemOf (uuid : string) (item : CartItem.t) : SaleItem.t :=
  {| SaleItem.id := uuid;
     SaleItem.medicineId := Medicine.id (CartItem.medicine item);
     SaleItem.medicineName := Medicine.brandName (CartItem.medicine item);
     SaleItem.batchId := Batch.id (CartItem.batch item);
     SaleItem.batchNumber := Batch.batchNumber (CartItem.batch item);
     SaleItem.quantity := CartItem.quantity item;
     SaleItem.unitPrice := Batch.sellingPrice (CartItem.batch item);
     SaleItem.totalPrice := lineSubtotal item;
     SaleItem.gstAmount :=
       JS.div (JS.mul (JS.ToNumber (CartItem.totalPrice item))
                      (Medicine.gst (CartItem.medicine item)))
              (JS.ofZ 100) |}.

(** [s || undefined] *)
Definition or_undefined (s : string) : option string :=
  if bool_decide (s = "") then None else Some s.

(** One turn of the loop of lines 140-147: read the row, and update it
    when the read found one. *)
Definition decrementStock (bs : gmap string Batch.t) (item : CartItem.t)
    : gmap string Batch.t :=
  match bs !! Batch.id (CartItem.batch item) with
  | Some batch =>
      alter (Batch.withCurrentStock (Batch.currentStock batch - CartItem.quantity item))
            (Batch.id (CartItem.batch item)) bs
  | None => bs
  end.

Definition updateStockLevels (cartItems : list CartItem.t) (bs : gmap string Batch.t)
    : gmap string Batch.t :=
  foldl decrementStock bs cartItems.

(** [ScheduleH1Service.addEntry]: [entry] is the register line still
    waiting for its [id]. *)
Definition addEntry (env : Env) (entry : string -> ScheduleH1Entry.t) (w : World)
    : World :=
  let h1Entry := entry (randomUUID env (uuidsDrawn w)) in
  set_uuidsDrawn (S (uuidsDrawn w))
    (set_db (set_scheduleH1Entries (scheduleH1Entries (db w) ++ [h1Entry]) (db w)) w).

(** The argument of [addEntry] at lines 152-162. *)
Definition h1EntryOf (env : Env) (f : SalesForm) (item : CartItem.t) (id : string)
    : ScheduleH1Entry.t :=
  {| ScheduleH1Entry.id := id;
     ScheduleH1Entry.medicineId := Medicine.id (CartItem.medicine item);
     ScheduleH1Entry.medicineName := Medicine.brandName (CartItem.medicine item);
     ScheduleH1Entry.batchNumber := Batch.batchNumber (CartItem.batch item);
     ScheduleH1Entry.customerName := JS.or_string (customerName f) "Walk-in Customer";
     ScheduleH1Entry.doctorName := JS.or_string (doctorName f) "Not specified";
     ScheduleH1Entry.prescriptionNumber :=
       JS.or_string (prescriptionNumber f) "Not provided";
     ScheduleH1Entry.quantityDispensed := CartItem.quantity item;
     ScheduleH1Entry.dispensedDate := now env;
     ScheduleH1Entry.pharmacistSignature := "System" |}.

Definition isH1 (item : CartItem.t) : bool :=
  Schedule.eqb (Medicine.scheduleType (CartItem.medicine item)) Schedule.H1.

(** The loop of lines 150-164. *)
Definition addScheduleH1Entries (env : Env) (f : SalesForm)
    (cartItems : list CartItem.t) (w : World) : World :=
  foldl (fun w' item => if isH1 item then addEntry env (h1EntryOf env f item) w' else w')
        w cartItems.

Inductive SaleOutcome : Type :=
| CartIsEmpty
| SaleCompleted (invoiceNumber : string).

Definition processSale (env : Env) (w : World) : SaleOutcome * World :=
  let cartItems := cartItems (store w) in
  let f := form w in
  if (length cartItems =? 0)%nat then
    (CartIsEmpty, addNotification env error "Cart is empty" w)
  else
    let totals := calculateTotals cartItems (discount f) in
    let invoiceNumber := "INV-" +:+ pretty (now env) in
    let saleItems :=
      imap (fun i item => saleItemOf (randomUUID env (uuidsDrawn w + i)) item)
           cartItems in
    let w1 := set_uuidsDrawn (uuidsDrawn w + length cartItems) w in
    let sale :=
      {| Sale.id := randomUUID env (uuidsDrawn w1);
         Sale.invoiceNumber := invoiceNumber;
         Sale.customerName := or_undefined (customerName f);
         Sale.customerPhone := or_undefined (customerPhone f);
         Sale.prescriptionId := or_undefined (prescriptionNumber f);
         Sale.items := saleItems;
         Sale.totalAmount := total totals;
         Sale.gstAmount := gstAmount totals;
         Sale.discountAmount := discountAmount totals;
         Sale.paymentMethod := paymentMethod f;
         Sale.saleDate := now env;
         Sale.pharmacistId := "system-user" |} in
    let w2 := set_uuidsDrawn (S (uuidsDrawn w1)) (set_db (add_sale sale (db w1)) w1) in
    let w3 := set_db (set_batches (updateStockLevels cartItems (batches (db w2))) (db w2)) w2 in
    let w4 := addScheduleH1Entries env f cartItems w3 in
    let w5 := set_store (clearCart (store w4)) w4 in
    let w6 :=
      set_form
        {| customerName := ""; customerPhone := ""; prescriptionNumber := "";
           doctorName := ""; paymentMethod := paymentMethod f;
           discount := JS.ofZ 0; processing := false; showRestockPrompt := true;
           completedSaleItems := cartItems |} w5 in
    (SaleCompleted invoiceNumber,
     addNotification env success ("Sale completed! Invoice: " +:+ invoiceNumber) w6).

(** ** Deleting a medicine ([LowStockPage.tsx], [handleDeleteMedicine]) *)

Inductive DeleteOutcome : Type :=
| HasActiveStock
| MedicineDeleted.

(** [db.batches.where('medicineId').equals(medicineId).delete()] *)
Definition delete_where_medicineId (medicineId : string) (bs : gmap string Batch.t)
    : gmap string Batch.t :=
  filter (fun kv => Batch.medicineId (snd kv) ≠ medicineId) bs.

Definition handleDeleteMedicine (env : Env) (medicine : Medicine.t) (w : World)
    : DeleteOutcome * World :=
  let batchesWithStock :=
    List.filter (fun batch => 0 <? Batch.currentStock batch)
      (where_medicineId_equals (Medicine.id medicine) (batches (db w))) in
  if (0 <? length batchesWithStock)%nat then
    (HasActiveStock,
     addNotification env error
       "Cannot delete medicine with existing stock. Please clear all batches first." w)
  else
    let d1 :=
      set_batches (delete_where_medicineId (Medicine.id medicine) (batches (db w)))
                  (db w) in
    let d2 := set_medicines (delete (Medicine.id medicine) (medicines d1)) d1 in
    (MedicineDeleted,
     addNotification env success
       ("Medicine "
          +:+ JS.or_string (Medicine.brandName medicine) (Medicine.name medicine)
          +:+ " deleted successfully")
       (set_db d2 w)).

(** ** Restocking ([RestockPage.tsx]) *)

(** The form's data; [expiryDate] is the date the form's string denotes. *)
Record RestockFormData : Type := {
  rf_batchNumber : string;
  rf_quantity : Z;
  rf_purchasePrice : JS.number;
  rf_sellingPrice : JS.number;
  rf_mrp : JS.number;
  rf_expiryDate : Date;
  rf_minStock : Z;
  rf_maxStock : Z;
  rf_supplierId : string
}.

(** [restockSchema]: the form only submits data that passes it. *)
Definition restockSchema (data : RestockFormData) : bool :=
  negb (bool_decide (rf_batchNumber data = ""))
  && (1 <=? rf_quantity data)
  && JS.nonneg (rf_purchasePrice data)
  && JS.nonneg (rf_sellingPrice data)
  && JS.nonneg (rf_mrp data)
  && (0 <=? rf_minStock data)
  && (0 <=? rf_maxStock data).

(** [onSubmit]: every restock is a new row.  [Table.add] rejects a key that
    is already there, which the handler reports. *)
Definition restock (env : Env) (medicine : Medicine.t) (data : RestockFormData)
    (w : World) : World :=
  if restockSchema data then
    let newBatch :=
      {| Batch.id := randomUUID env (uuidsDrawn w);
         Batch.medicineId := Medicine.id medicine;
         Batch.batchNumber := rf_batchNumber data;
         Batch.expiryDate := rf_expiryDate data;
         Batch.mrp := rf_mrp data;
         Batch.purchasePrice := rf_purchasePrice data;
         Batch.sellingPrice := rf_sellingPrice data;
         Batch.currentStock := rf_quantity data;
         Batch.minStock := rf_minStock data;
         Batch.maxStock := rf_maxStock data;
         Batch.supplierId := rf_supplierId data;
         Batch.receivedDate := now env;
         Batch.quantityToDispense := None |} in
    let w1 := set_uuidsDrawn (S (uuidsDrawn w)) w in
    match batches (db w1) !! Batch.id newBatch with
    | None =>
        addNotification env success
          ("Successfully restocked " +:+ Medicine.brandName medicine +:+ " with "
             +:+ pretty (rf_quantity data) +:+ " units")
          (set_db (set_batches (<[Batch.id newBatch := newBatch]> (batches (db w1)))
                               (db w1)) w1)
    | Some _ => addNotification env error "Failed to restock medicine" w1
    end
  else w.

(** ** The operations of a session, and their traces *)

Inductive Action : Type :=
| Restock (medicine : Medicine.t) (data : RestockFormData)
| AddToCart (medicine : Medicine.t) (requestedQuantity : Z)
| UpdateQuantity (medicineId batchId : string) (newQuantity : Z)
| RemoveFromCart (medicineId batchId : string)
| ProcessSale
| DeleteMedicine (medicine : Medicine.t).

Definition perform (env : Env) (a : Action) (w : World) : World :=
  match a with
  | Restock medicine data => restock env medicine data w
  | AddToCart medicine requestedQuantity =>
      handleAddToCart env medicine requestedQuantity w
  | UpdateQuantity medicineId batchId newQuantity =>
      updateQuantity medicineId batchId newQuantity w
  | RemoveFromCart medicineId batchId =>
      set_store (removeFromCart medicineId batchId (store w)) w
  | ProcessSale => snd (processSale env w)
  | DeleteMedicine medicine => snd (handleDeleteMedicine env medicine w)
  end.

Definition run (env : Env) (actions : list Action) (w : World) : World :=
  foldl (fun w' a => perform env a w') w actions.

(** Every stored batch has a stock that is not negative. *)
Definition stockNonNegative (d : DB) : Prop :=
  ∀ k batch, batches d !! k = Some batch → 0 ≤ Batch.currentStock batch.

(** ** What a sale should do to the stock, stated on its own *)

(** The units the cart sells from the batch [batchId]. *)
Definition soldFrom (batchId : string) (cartItems : list CartItem.t) : Z :=
  foldr (fun item acc =>
           if bool_decide (Batch.id (CartItem.batch item) = batchId)
           then CartItem.quantity item + acc else acc) 0 cartItems.

(** The units the cart sells in all. *)
Definition totalSold (cartItems : list CartItem.t) : Z :=
  foldr (fun item acc => CartItem.quantity item + acc) 0 cartItems.

(** The stock of a whole table. *)
Definition stockOnHand (bs : gmap string Batch.t) : Z :=
  map_fold (fun _ batch acc => Batch.currentStock batch + acc) 0 bs.

(** ** Properties of a selection *)

(** The selection takes [min(remaining, currentStock)] from each batch in
    turn, starting with [remaining] units to find. *)
Fixpoint takesGreedily (remaining : Z) (selected : list Batch.t) : Prop :=
  match selected with
  | [] => True
  | batch :: rest =>
      Batch.quantityToDispense batch
        = Some (Z.min remaining (Batch.currentStock batch))
      ∧ takesGreedily (remaining - Z.min remaining (Batch.currentStock batch)) rest
  end.

(** [s] is the stored row [b] with a quantity to dispense attached. *)
Definition selectedFrom (b s : Batch.t) : Prop :=
  ∃ q, s = Batch.withQuantityToDispense q b.

Definition expiresBefore (a b : Batch.t) : Prop :=
  Batch.expiryDate a < Batch.expiryDate b.

Definition expiresNoLater (a b : Batch.t) : Prop :=
  Batch.expiryDate a ≤ Batch.expiryDate b.

(** ** Scenarios *)

(** Moments, in milliseconds since the epoch. *)
Definition d2020_01_01 : Date := 1577836800000.
Definition d2024_06_01 : Date := 1717200000000.
Definition d2025_01_01 : Date := 1735689600000.
Definition d2025_06_01 : Date := 1748736000000.
Definition d2030_01_01 : Date := 1893456000000.

Definition sampleEnv : Env :=
  {| now := d2024_06_01; randomUUID := λ n, "uuid-" +:+ pretty n |}.

(** The sample medicines of [initializeDatabase]. *)
Definition paracetamol : Medicine.t :=
  {| Medicine.id := "1"; Medicine.name := "Paracetamol 500mg";
     Medicine.genericName := Some "Paracetamol"; Medicine.brandName := "Crocin";
     Medicine.dosage := Some "500mg"; Medicine.medicineType := Some "Tablet";
     Medicine.manufacturer := "GSK"; Medicine.scheduleType := Schedule.GENERAL;
     Medicine.hsn := "30049099"; Medicine.gst := JS.ofZ 12;
     Medicine.description := Some "Pain relief and fever reducer";
     Medicine.createdAt := d2024_06_01; Medicine.updatedAt := d2024_06_01 |}.

Definition alprazolam : Medicine.t :=
  {| Medicine.id := "2"; Medicine.name := "Alprazolam 0.5mg";
     Medicine.genericName := Some "Alprazolam"; Medicine.brandName := "Alprax";
     Medicine.dosage := Some "0.5mg"; Medicine.medicineType := Some "Tablet";
     Medicine.manufacturer := "Torrent"; Medicine.scheduleType := Schedule.H1;
     Medicine.hsn := "30049099"; Medicine.gst := JS.ofZ 12;
     Medicine.description := Some "Anti-anxiety medication";
     Medicine.createdAt := d2024_06_01; Medicine.updatedAt := d2024_06_01 |}.

(** A stored batch of [medicine], priced like the sample batch PCM001. *)
Definition batchOf (medicine : Medicine.t) (id : string) (expiryDate : Date)
    (currentStock : Z) : Batch.t :=
  {| Batch.id := id; Batch.medicineId := Medicine.id medicine;
     Batch.batchNumber := "LOT-" +:+ id; Batch.expiryDate := expiryDate;
     Batch.mrp := JS.ofZ 25; Batch.purchasePrice := JS.ofZ 18;
     Batch.sellingPrice := JS.ofZ 23; Batch.currentStock := currentStock;
     Batch.minStock := 20; Batch.maxStock := 500; Batch.supplierId := "SUP001";
     Batch.receivedDate := d2024_06_01; Batch.quantityToDispense := None |}.

(** A store with the given rows and no sales yet. *)
Definition storeOf (ms : list Medicine.t) (bs : list Batch.t) : DB :=
  {| medicines := list_to_map ((λ m, (Medicine.id m, m)) <$> ms);
     batches := list_to_map ((λ b, (Batch.id b, b)) <$> bs);
     sales := []; scheduleH1Entries := [] |}.

Definition worldOf (d : DB) : World :=
  {| db := d;
     store := {| sidebarOpen := false; cartItems := []; notifications := [] |};
     form := initialSalesForm; uuidsDrawn := 0 |}.

(** Batch A: 5 units, expires 2025-01-01; batch B: 10 units, expires
    2025-06-01. *)
Definition batchA : Batch.t := batchOf paracetamol "A" d2025_01_01 5.
Definition batchB : Batch.t := batchOf paracetamol "B" d2025_06_01 10.
Definition storeAB : DB := storeOf [paracetamol] [batchA; batchB].

(** Batch C: 3 units, expired 2020-01-01; batch D: no units, expires
    2030-01-01. *)
Definition batchC : Batch.t := batchOf paracetamol "C" d2020_01_01 3.
Definition batchD : Batch.t := batchOf paracetamol "D" d2030_01_01 0.
Definition storeCD : DB := storeOf [paracetamol] [batchC; batchD].

(** An expired batch with the earliest date and ample stock, next to a
    batch that can be sold. *)
Definition batchOld : Batch.t := batchOf paracetamol "OLD" d2020_01_01 100.
Definition storeOldB : DB := storeOf [paracetamol] [batchOld; batchB].

(** Two batches of one medicine that expire on the same day. *)
Definition batchT1 : Batch.t := batchOf paracetamol "T1" d2025_01_01 1.
Definition batchT2 : Batch.t := batchOf paracetamol "T2" d2025_01_01 1.
Definition storeTied : DB := storeOf [paracetamol] [batchT1; batchT2].

(** One batch of five units. *)
Definition batchB5 : Batch.t := batchOf paracetamol "B5" d2025_06_01 5.
Definition store5 : DB := storeOf [paracetamol] [batchB5].

(** The same five units are put in the cart twice, then sold. *)
Definition oversell : list Action :=
  [AddToCart paracetamol 5; AddToCart paracetamol 5; ProcessSale].

(** Two sessions on one store.  Session A puts the five units in its cart.
    Session B sells the five units and deletes the medicine, which is
    allowed now that no batch of it has stock.  Then session A checks
    out. *)
Definition sessionA : World := run sampleEnv [AddToCart paracetamol 5] (worldOf store5).
Definition sessionB : World :=
  run sampleEnv [AddToCart paracetamol 5; ProcessSale; DeleteMedicine paracetamol]
      (worldOf store5).
Definition sessionA_at_checkout : World := set_db (db sessionB) sessionA.

(** A cart with a Schedule H1 line and a line that is not, and no customer
    details entered. *)
Definition batchAlp : Batch.t := batchOf alprazolam "ALP" d2025_06_01 50.
Definition storeH1 : DB := storeOf [paracetamol; alprazolam] [batchB; batchAlp].
Definition cartH1 : World :=
  run sampleEnv [AddToCart alprazolam 2; AddToCart paracetamol 3] (worldOf storeH1).

(** [setDiscount] *)
Definition setDiscount (discount : JS.number) (w : World) : World :=
  set_form
    {| customerName := customerName (form w); customerPhone := customerPhone (form w);
       prescriptionNumber := prescriptionNumber (form w);
       doctorName := doctorName (form w); paymentMethod := paymentMethod (form w);
       discount := discount; processing := processing (form w);
       showRestockPrompt := showRestockPrompt (form w);
       completedSaleItems := completedSaleItems (form w) |} w.

(** Two units of batch A in the cart, and a discount of ten per cent. *)
Definition cartDiscounted : World :=
  setDiscount (JS.ofZ 10) (run sampleEnv [AddToCart paracetamol 2] (worldOf storeAB)).

(** A medicine whose batches are all sold out, next to another medicine. *)
Definition batchE1 : Batch.t := batchOf paracetamol "E1" d2025_01_01 0.
Definition batchE2 : Batch.t := batchOf paracetamol "E2" d2025_06_01 0.
Definition storeSoldOut : DB :=
  storeOf [paracetamol; alprazolam] [batchE1; batchE2; batchAlp].

(** A restock of forty units of paracetamol. *)
Definition restockForty : RestockFormData :=
  {| rf_batchNumber := "PCM002"; rf_quantity := 40; rf_purchasePrice := JS.ofZ 18;
     rf_sellingPrice := JS.ofZ 23; rf_mrp := JS.ofZ 25; rf_expiryDate := d2030_01_01;
     rf_minStock := 20; rf_maxStock := 500; rf_supplierId := "DEFAULT" |}.

(** ** More of the store ([store/index.ts]) *)

(** [removeNotification] *)
Definition removeNotification (id : string) (s : PharmacyStore) : PharmacyStore :=
  {| sidebarOpen := sidebarOpen s; cartItems := cartItems s;
     notifications :=
       List.filter (λ n, negb (bool_decide (Notification.id n = id))) (notifications s) |}.

(** What identifies a cart line: the pair that [find] and [map] test. *)
Definition lineKey (item : CartItem.t) : string * string :=
  (Medicine.id (CartItem.medicine item), Batch.id (CartItem.batch item)).

(** No two lines of the cart are for the same medicine and batch. *)
Definition uniqueLines (cart : list CartItem.t) : Prop := NoDup (lineKey <$> cart).

(** ** The header search ([HeaderSearch.tsx], [getMedicineStockAndPrice]) *)

Record StockAndPrice : Type := {
  stock : Z;
  price : JS.number
}.

Definition getMedicineStockAndPrice (now : Date) (medicineId : string)
    : Dexie StockAndPrice :=
  found ← read (λ d, List.filter (sellable now)
                       (where_medicineId_equals medicineId (batches d)));
  mret {| stock := foldl (λ total batch, total + Batch.currentStock batch) 0 found;
          price := match found with
                   | first :: _ => Batch.sellingPrice first
                   | [] => JS.ofZ 0
                   end |}.

(** ** Stock health ([services/fefo.ts]) *)

(** [.sortBy('currentStock')] *)
Definition sortBy_currentStock (l : list Batch.t) : list Batch.t :=
  stable_sort (λ a b, Batch.currentStock a <=? Batch.currentStock b) l.

Definition getLowStockMedicines : Dexie (list Batch.t) :=
  read (λ d, sortBy_currentStock
               (List.filter (λ batch, Batch.currentStock batch <=? Batch.minStock batch)
                            (rows (batches d)))).

(** The local calendar: [plusDays cal t n] is the moment that
    [setDate(getDate() + n)] turns the moment [t] into. *)
Record Calendar : Type := {
  plusDays : Date → Z → Date
}.

(** [db.batches.where('expiryDate').below(threshold)]: the rows below the
    threshold in the order of the [expiryDate] index, which lists rows with
    the same date in primary-key order. *)
Definition where_expiryDate_below (threshold : Date) (bs : gmap string Batch.t)
    : list Batch.t :=
  List.filter (λ batch, Batch.expiryDate batch <? threshold) (sortBy_expiryDate (rows bs)).

Definition getExpiringMedicines (cal : Calendar) (now : Date) (days : Z)
    : Dexie (list Batch.t) :=
  let expiryThreshold := plusDays cal now days in
  read (λ d, sortBy_expiryDate
               (List.filter (λ batch, 0 <? Batch.currentStock batch)
                            (where_expiryDate_below expiryThreshold (batches d)))).

(** ** Restock suggestions ([RestockSuggestionPage], [loadRestockSuggestions]) *)

Module Priority.
Inductive t : Type := critical | low | normal.

(** [priorityOrder] *)
Definition order (p : t) : Z :=
  match p with
  | critical => 0
  | low => 1
  | normal => 2
  end.
End Priority.

Module RestockSuggestion.
Record t : Type := mk {
  medicine : Medicine.t;
  currentStock : Z;
  minStock : Z;
  maxStock : Z;
  suggestedQuantity : Z;
  customQuantity : Z;
  isSelected : bool;
  priority : Priority.t;
  estimatedCost : JS.number;
  averageConsumption : Z
}.
End RestockSuggestion.

(** [Math.min(...l)] and [Math.max(...l)] of a list that is not empty,
    given as its first element and the rest. *)
Definition Math_min (x : Z) (l : list Z) : Z := foldl Z.min x l.
Definition Math_max (x : Z) (l : list Z) : Z := foldl Z.max x l.

(** The branches that set [suggestedQuantity] and [priority]. *)
Definition suggestFor (currentStock minStock maxStock : Z) : Z * Priority.t :=
  if currentStock =? 0 then (Z.max (minStock * 2) 50, Priority.critical)
  else if currentStock <=? minStock then (maxStock - currentStock, Priority.low)
  else if currentStock <=? minStock * 2
       then (Z.max (maxStock - currentStock) minStock, Priority.normal)
  else (0, Priority.normal).

(** The body of the loop for one medicine: its suggestion, if it needs
    restocking. *)
Definition suggestionOf (now : Date) (bs : gmap string Batch.t) (medicine : Medicine.t)
    : list RestockSuggestion.t :=
  let found := List.filter (sellable now) (where_medicineId_equals (Medicine.id medicine) bs) in
  let currentStock := foldl (λ sum batch, sum + Batch.currentStock batch) 0 found in
  let minStock :=
    match found with
    | b :: rest => Math_min (Batch.minStock b) (Batch.minStock <$> rest)
    | [] => 10
    end in
  let maxStock :=
    match found with
    | b :: rest => Math_max (Batch.maxStock b) (Batch.maxStock <$> rest)
    | [] => 100
    end in
  let '(suggestedQuantity, priority) := suggestFor currentStock minStock maxStock in
  if 0 <? suggestedQuantity then
    let averagePrice :=
      match found with
      | _ :: _ =>
          JS.div (foldl (λ sum batch, JS.add sum (Batch.purchasePrice batch)) (JS.ofZ 0) found)
                 (JS.ofZ (Z.of_nat (length found)))
      | [] => JS.ofZ 0
      end in
    [ {| RestockSuggestion.medicine := medicine;
         RestockSuggestion.currentStock := currentStock;
         RestockSuggestion.minStock := minStock;
         RestockSuggestion.maxStock := maxStock;
         RestockSuggestion.suggestedQuantity := suggestedQuantity;
         RestockSuggestion.customQuantity := suggestedQuantity;
         RestockSuggestion.isSelected :=
           match priority with Priority.critical => true | _ => false end;
         RestockSuggestion.priority := priority;
         RestockSuggestion.estimatedCost := averagePrice;
         RestockSuggestion.averageConsumption := 5 |} ]
  else [].

Definition loadRestockSuggestions (now : Date) : Dexie (list RestockSuggestion.t) :=
  read (λ d,
    stable_sort
      (λ a b, Priority.order (RestockSuggestion.priority a)
              <=? Priority.order (RestockSuggestion.priority b))
      (rows (medicines d) ≫= suggestionOf now (batches d))).

(** ** The inventory list ([LowStockPage.tsx], [InventoryList]) *)

Module MedicineWithStock.
Record t : Type := mk {
  medicine : Medicine.t;
  batches : list Batch.t;
  totalStock : Z;
  lowStock : bool;
  expiringSoon : bool
}.
End MedicineWithStock.

Definition medicineWithStock (cal : Calendar) (now : Date) (bs : gmap string Batch.t)
    (medicine : Medicine.t) : MedicineWithStock.t :=
  let found := where_medicineId_equals (Medicine.id medicine) bs in
  let totalStock := foldl (λ sum batch, sum + Batch.currentStock batch) 0 found in
  let lowStock :=
    existsb (λ batch, Batch.currentStock batch <=? Batch.minStock batch) found
    || (totalStock <=? 3) in
  let thirtyDaysFromNow := plusDays cal now 30 in
  let expiringSoon :=
    existsb (λ batch, (Batch.expiryDate batch <=? thirtyDaysFromNow)
                      && (0 <? Batch.currentStock batch)) found in
  MedicineWithStock.mk medicine found totalStock lowStock expiringSoon.

Definition fetchMedicinesWithStock (cal : Calendar) (now : Date)
    : Dexie (list MedicineWithStock.t) :=
  read (λ d, medicineWithStock cal now (batches d) <$> rows (medicines d)).

(** The [label] of [getStockStatus]; its colour and icon follow the label. *)
Definition getStockStatus (item : MedicineWithStock.t) : string :=
  if MedicineWithStock.totalStock item =? 0 then "Out of Stock"
  else if MedicineWithStock.totalStock item <=? 3 then "Critical"
  else if MedicineWithStock.lowStock item then "Low Stock"
  else "In Stock".

(** ** The low stock page ([LowStockPage.tsx], [loadLowStockItems]) *)

Module LowStockItem.
Record t : Type := mk {
  medicine : Medicine.t;
  batches : list Batch.t;
  totalStock : Z;
  lowestStock : Z
}.
End LowStockItem.

Definition lowStockItemOf (now : Date) (bs : gmap string Batch.t) (medicine : Medicine.t)
    : list LowStockItem.t :=
  let batchesForMedicine := where_medicineId_equals (Medicine.id medicine) bs in
  let activeBatches := List.filter (sellable now) batchesForMedicine in
  let totalStock := foldl (λ sum batch, sum + Batch.currentStock batch) 0 activeBatches in
  let lowestStock :=
    match activeBatches with
    | b :: rest => Math_min (Batch.currentStock b) (Batch.currentStock <$> rest)
    | [] => 0
    end in
  let hasBatchBelowMinStock :=
    existsb (λ batch, Batch.currentStock batch <=? Batch.minStock batch) activeBatches in
  let isLowStock :=
    if totalStock =? 0 then true
    else if totalStock <=? 10 then true
    else if hasBatchBelowMinStock && (totalStock <=? 50) then true
    else false in
  if isLowStock then [LowStockItem.mk medicine activeBatches totalStock lowestStock]
  else [].

Definition loadLowStockItems (now : Date) : Dexie (list LowStockItem.t) :=
  read (λ d,
    stable_sort (λ a b, LowStockItem.lowestStock a <=? LowStockItem.lowestStock b)
                (rows (medicines d) ≫= lowStockItemOf now (batches d))).

(** ** More scenarios *)

(** The batches table is keyed by the [id] of its rows. *)
Definition keyedById (d : DB) : Prop :=
  ∀ k batch, batches d !! k = Some batch → Batch.id batch = k.

(** Calendar days of twenty-four hours. *)
Definition plainCalendar : Calendar :=
  {| plusDays := λ t n, t + n * 86400000 |}.

(** A cart line of [quantity] units of the stored batch. *)
Definition lineOf (medicine : Medicine.t) (batch : Batch.t) (quantity : Z) : CartItem.t :=
  CartItem.mk medicine batch quantity.

(** * Properties *)

(** ** Stable sorting *)

Section StableSortFacts.
Context {A : Type} (le : A -> A -> bool).

Lemma insert_sorted_Permutation (x : A) (l : list A) :
  insert_sorted le x l ≡ₚ x :: l.
Proof.
  induction l as [|y l IH]; simpl; [done|].
  destruct (le x y); [done|].
  rewrite IH. apply Permutation_swap.
Qed.

Lemma stable_sort_Permutation (l : list A) : stable_sort le l ≡ₚ l.
Proof.
  induction l as [|x l IH]; simpl; [done|].
  by rewrite insert_sorted_Permutation, IH.
Qed.

Lemma elem_of_stable_sort (x : A) (l : list A) : x ∈ stable_sort le l ↔ x ∈ l.
Proof. by rewrite stable_sort_Permutation. Qed.

Hypothesis le_total : ∀ a b, le a b = false → le b a = true.

Lemma insert_sorted_Sorted (x : A) (l : list A) :
  Sorted (λ a b, le a b = true) l →
  Sorted (λ a b, le a b = true) (insert_sorted le x l).
Proof.
  induction 1 as [|y l Hl IH Hy]; simpl.
  - repeat constructor.
  - destruct (le x y) eqn:Hxy.
    + constructor; [by constructor|by constructor].
    + constructor; [done|].
      destruct Hy as [|z l Hyz]; simpl.
      * constructor. by apply le_total.
      * destruct (le x z); constructor; [by apply le_total|done].
Qed.

Lemma stable_sort_Sorted (l : list A) :
  Sorted (λ a b, le a b = true) (stable_sort le l).
Proof.
  induction l as [|x l IH]; simpl; [constructor|].
  by apply insert_sorted_Sorted.
Qed.
End StableSortFacts.

(** ** The candidate query *)

Lemma elem_of_rows {V : Type} (m : gmap string V) (v : V) :
  v ∈ rows m ↔ ∃ k, m !! k = Some v.
Proof.
  unfold rows. rewrite list_elem_of_fmap. split.
  - intros [[k v'] [-> Hin]]. exists k.
    by apply elem_of_stable_sort, elem_of_map_to_list in Hin.
  - intros [k Hk]. exists (k, v). split; [done|].
    by apply elem_of_stable_sort, elem_of_map_to_list.
Qed.

Lemma elem_of_where_medicineId_equals medicineId (bs : gmap string Batch.t) b :
  b ∈ where_medicineId_equals medicineId bs
  ↔ (∃ k, bs !! k = Some b) ∧ Batch.medicineId b = medicineId.
Proof.
  unfold where_medicineId_equals.
  rewrite !list_elem_of_In, filter_In, <- !list_elem_of_In, elem_of_rows.
  by rewrite bool_decide_eq_true.
Qed.

Lemma sellable_spec now b :
  sellable now b = true ↔ 0 < Batch.currentStock b ∧ now < Batch.expiryDate b.
Proof. unfold sellable. rewrite andb_true_iff, !Z.ltb_lt. done. Qed.

(** The candidates are exactly the medicine's stored batches with stock
    on hand and an expiry date after the present moment. *)
Lemma elem_of_candidates now medicineId d b :
  b ∈ candidates now medicineId d
  ↔ (∃ k, batches d !! k = Some b)
    ∧ Batch.medicineId b = medicineId
    ∧ 0 < Batch.currentStock b
    ∧ now < Batch.expiryDate b.
Proof.
  unfold candidates, sortBy_expiryDate. rewrite elem_of_stable_sort.
  rewrite list_elem_of_In, filter_In, <- list_elem_of_In.
  rewrite elem_of_where_medicineId_equals, sellable_spec. tauto.
Qed.

Lemma candidates_in_stock now medicineId d :
  Forall (λ b, 0 < Batch.currentStock b) (candidates now medicineId d).
Proof.
  apply Forall_forall. intros b Hb. apply elem_of_candidates in Hb. tauto.
Qed.

Lemma expiresNoLater_trans : Transitive expiresNoLater.
Proof. unfold expiresNoLater. intros a b c. lia. Qed.

Lemma Sorted_weaken {A} (R1 R2 : relation A) (l : list A) :
  (∀ a b, R1 a b → R2 a b) → Sorted R1 l → Sorted R2 l.
Proof.
  intros HR. induction 1 as [|x l Hl IH Hx]; constructor; [done|].
  destruct Hx; constructor. by apply HR.
Qed.

Lemma candidates_sorted now medicineId d :
  StronglySorted expiresNoLater (candidates now medicineId d).
Proof.
  apply (@Sorted_StronglySorted _ _ expiresNoLater_trans).
  unfold candidates, sortBy_expiryDate.
  eapply Sorted_weaken; [|apply stable_sort_Sorted].
  - intros a b Hab. by apply Z.leb_le in Hab.
  - intros a b Hab. apply Z.leb_le. apply Z.leb_gt in Hab. lia.
Qed.

(** With pairwise distinct keys, a sorted list is strictly sorted. *)
Lemma StronglySorted_strict (l : list Batch.t) :
  NoDup (Batch.expiryDate <$> l) →
  StronglySorted expiresNoLater l → StronglySorted expiresBefore l.
Proof.
  induction l as [|a l IH]; intros Hnd Hs; [constructor|].
  apply NoDup_cons in Hnd as [Ha Hnd].
  apply StronglySorted_inv in Hs as [Hs Hall].
  constructor; [by apply IH|].
  apply Forall_forall. intros b Hb.
  rewrite Forall_forall in Hall. specialize (Hall b Hb).
  unfold expiresNoLater, expiresBefore in *.
  assert (Batch.expiryDate a ≠ Batch.expiryDate b); [|lia].
  intros Heq. apply Ha. rewrite Heq. by apply list_elem_of_fmap_2.
Qed.

Lemma StronglySorted_take {A} (R : relation A) (n : nat) (l : list A) :
  StronglySorted R l → StronglySorted R (take n l).
Proof.
  intros Hs. rewrite <- (take_drop n l) in Hs.
  by apply StronglySorted_app_1_l in Hs.
Qed.

Lemma NoDup_fmap_take {A B} (f : A → B) (n : nat) (l : list A) :
  NoDup (f <$> l) → NoDup (f <$> take n l).
Proof.
  intros Hnd. rewrite <- (take_drop n l), fmap_app in Hnd.
  by apply NoDup_app in Hnd as [? _].
Qed.

(** A selection keeps the expiry dates of the rows it was taken from. *)
Lemma selectedFrom_sorted (R : Z → Z → Prop) (l sel : list Batch.t) :
  Forall2 selectedFrom l sel →
  StronglySorted (λ a b, R (Batch.expiryDate a) (Batch.expiryDate b)) l →
  StronglySorted (λ a b, R (Batch.expiryDate a) (Batch.expiryDate b)) sel.
Proof.
  induction 1 as [|b s l sel [q ->] Hrest IH]; intros Hs; [constructor|].
  apply StronglySorted_inv in Hs as [Hs Hall].
  constructor; [by apply IH|].
  clear IH Hs. induction Hrest as [|b' s' l sel [q' ->] Hrest IH]; [constructor|].
  apply Forall_cons in Hall as [Hb Hall].
  constructor; [exact Hb|by apply IH].
Qed.

(** ** The allocation loop *)

Lemma foldl_add_shift {A} (f : A → Z) (a : Z) (l : list A) :
  foldl (λ total x, total + f x) a l = a + foldl (λ total x, total + f x) 0 l.
Proof.
  revert a. induction l as [|x l IH]; intros a; simpl; [lia|].
  rewrite (IH (a + f x)), (IH (0 + f x)). lia.
Qed.

Lemma totalStock_cons b l : totalStock (b :: l) = Batch.currentStock b + totalStock l.
Proof. unfold totalStock. simpl. by rewrite foldl_add_shift. Qed.

Lemma dispensed_cons b l :
  dispensed (b :: l) = JS.or_Z (Batch.quantityToDispense b) 0 + dispensed l.
Proof. unfold dispensed. simpl. by rewrite foldl_add_shift. Qed.

Lemma totalStock_nonneg l :
  Forall (λ b, 0 < Batch.currentStock b) l → 0 ≤ totalStock l.
Proof.
  induction 1 as [|b l Hb Hl IH]; [done|]. rewrite totalStock_cons. lia.
Qed.

Lemma or_Z_0 q : JS.or_Z (Some q) 0 = q.
Proof. simpl. destruct (Z.eqb_spec q 0); lia. Qed.

Lemma totalStock_Permutation l1 l2 : l1 ≡ₚ l2 → totalStock l1 = totalStock l2.
Proof.
  induction 1 as [|b l1 l2 _ IH|a b l|l1 l2 l3 _ IH1 _ IH2];
    rewrite ?totalStock_cons; [done|by rewrite IH|lia|congruence].
Qed.

Lemma filter_Permutation_bool {A} (p : A → bool) (l1 l2 : list A) :
  l1 ≡ₚ l2 → List.filter p l1 ≡ₚ List.filter p l2.
Proof.
  induction 1 as [|x l1 l2 _ IH|x y l|l1 l2 l3 _ IH1 _ IH2]; simpl.
  - done.
  - destruct (p x); by rewrite IH.
  - destruct (p x), (p y); try done. apply Permutation_swap.
  - by rewrite IH1.
Qed.

(** The stock the query of the engine finds is the combined stock of the
    eligible batches. *)
Lemma available_candidates now medicineId d :
  available now medicineId d = totalStock (candidates now medicineId d).
Proof.
  unfold available, candidates, sortBy_expiryDate, where_medicineId_equals, rows.
  rewrite (totalStock_Permutation _ _ (stable_sort_Permutation _ _)).
  rewrite (totalStock_Permutation _ _
             (filter_Permutation_bool _ _ _
                (filter_Permutation_bool _ _ _
                   (fmap_Permutation _ _ _ (stable_sort_Permutation _ _))))).
  rewrite map_fold_foldr.
  induction (map_to_list (batches d)) as [|[k b] l IH]; [done|].
  simpl. rewrite IH. unfold eligible, sellable.
  destruct (bool_decide (Batch.medicineId b = medicineId)); simpl; [|done].
  destruct (_ && _); [|done]. by rewrite totalStock_cons.
Qed.

(** Nothing is asked for: the loop leaves at its first test. *)
Lemma allocate_nothing l acc r : r ≤ 0 → allocate l acc r = (acc, r).
Proof.
  intros Hr. destruct l as [|b l]; simpl; [done|].
  destruct (Z.leb_spec r 0); [done|lia].
Qed.

(** The loop over batches that all have stock: it extends the selection by
    a prefix of the batches, takes greedily, and stops with what the batches
    could not cover. *)
Lemma allocate_spec l : ∀ acc r,
  Forall (λ b, 0 < Batch.currentStock b) l → 0 ≤ r →
  ∃ sel,
    allocate l acc r = (acc ++ sel, Z.max 0 (r - totalStock l))
    ∧ Forall2 selectedFrom (take (length sel) l) sel
    ∧ takesGreedily r sel
    ∧ dispensed sel = Z.min r (totalStock l).
Proof.
  induction l as [|b l IH]; intros acc r Hl Hr.
  - exists []. simpl. rewrite app_nil_r. unfold totalStock, dispensed. simpl.
    repeat split; [f_equal; lia|constructor|lia].
  - apply Forall_cons in Hl as [Hb Hl].
    pose proof (totalStock_nonneg l Hl) as Hpos.
    rewrite totalStock_cons. simpl.
    destruct (Z.leb_spec r 0) as [Hr0|Hr0].
    + exists []. rewrite app_nil_r. unfold dispensed. simpl.
      repeat split; [f_equal; lia|constructor|lia].
    + set (q := Z.min r (Batch.currentStock b)).
      destruct (IH (acc ++ [Batch.withQuantityToDispense q b]) (r - q) Hl)
        as (sel & Hrun & Hfrom & Hgreedy & Hsum); [lia|].
      exists (Batch.withQuantityToDispense q b :: sel).
      rewrite Hrun, <- app_assoc. simpl.
      repeat split.
      * f_equal. lia.
      * constructor; [by exists q|done].
      * done.
      * rewrite dispensed_cons, Hsum. simpl Batch.quantityToDispense.
        rewrite or_Z_0. lia.
Qed.

(** ** The allocation engine *)

Lemma selectBatchesForSale_unfold now medicineId quantity d :
  selectBatchesForSale now medicineId quantity d
  = let '(selectedBatches, remainingQuantity) :=
      allocate (candidates now medicineId d) [] quantity in
    if 0 <? remainingQuantity then (Throw (InsufficientStock remainingQuantity), d)
    else (Ok selectedBatches, d).
Proof.
  unfold selectBatchesForSale, mbind, Dexie_bind, read. simpl.
  destruct (allocate _ _ _) as [sel r]. by destruct (0 <? r).
Qed.

(** A request that the stock covers is answered with a prefix of the
    candidates, each with the quantity the greedy walk takes from it. *)
Lemma selectBatchesForSale_covered now medicineId quantity d :
  0 < quantity → quantity ≤ available now medicineId d →
  ∃ selected,
    selectBatchesForSale now medicineId quantity d = (Ok selected, d)
    ∧ Forall2 selectedFrom
        (take (length selected) (candidates now medicineId d)) selected
    ∧ takesGreedily quantity selected
    ∧ dispensed selected = quantity.
Proof.
  intros Hq Hav. rewrite available_candidates in Hav.
  destruct (allocate_spec (candidates now medicineId d) [] quantity)
    as (sel & Hrun & Hfrom & Hgreedy & Hsum);
    [apply candidates_in_stock|lia|].
  exists sel. rewrite selectBatchesForSale_unfold, Hrun. simpl.
  destruct (Z.ltb_spec 0 (Z.max 0 (quantity - totalStock (candidates now medicineId d))));
    [lia|].
  repeat split; [done|done|lia].
Qed.

(** Whatever is selected comes from a candidate. *)
Lemma selectBatchesForSale_from_candidates now medicineId quantity d selected d' :
  selectBatchesForSale now medicineId quantity d = (Ok selected, d') →
  ∀ s, s ∈ selected → ∃ b, b ∈ candidates now medicineId d ∧ selectedFrom b s.
Proof.
  rewrite selectBatchesForSale_unfold. intros Hrun s Hs.
  destruct (Z.le_gt_cases quantity 0) as [Hq|Hq].
  - rewrite allocate_nothing in Hrun by done.
    destruct (0 <? quantity); [done|]. injection Hrun as <- <-. by apply elem_of_nil in Hs.
  - destruct (allocate_spec (candidates now medicineId d) [] quantity)
      as (sel & Hal & Hfrom & _); [apply candidates_in_stock|lia|].
    rewrite Hal in Hrun. simpl in Hrun.
    destruct (0 <? _); [done|]. injection Hrun as <- <-.
    apply list_elem_of_lookup in Hs as [i Hi].
    destruct (Forall2_lookup_r _ _ _ _ _ Hfrom Hi) as (b & Hb & Hsel).
    exists b. split; [|done].
    apply lookup_take_Some in Hb as [Hb _]. by eapply list_elem_of_lookup_2.
Qed.

Example selectBatchesForSale_scenario_AB :
  selectBatchesForSale d2024_06_01 "1" 8 storeAB
  = (Ok [Batch.withQuantityToDispense 5 batchA; Batch.withQuantityToDispense 3 batchB],
     storeAB).
Proof. vm_compute. reflexivity. Qed.

Example selectBatchesForSale_scenario_CD :
  selectBatchesForSale d2024_06_01 "1" 4 storeCD
  = (Throw (mkError "Insufficient stock. Need 4 more units."), storeCD).
Proof. vm_compute. reflexivity. Qed.

(** C1, as amended.  A request for [quantity > 0] units that the sellable
    stock of the medicine covers is answered, without touching the store,
    with a prefix of the sellable batches in ascending order of expiry
    date (strictly ascending when no two of them share a date; batches with
    the same date stay next to each other), from each batch
    [min(remaining, currentStock)], and the quantities add up to
    [quantity]. *)
Theorem selectBatchesForSale_fefo now medicineId quantity d :
  0 < quantity → quantity ≤ available now medicineId d →
  ∃ selected,
    selectBatchesForSale now medicineId quantity d = (Ok selected, d)
    ∧ Forall2 selectedFrom
        (take (length selected) (candidates now medicineId d)) selected
    ∧ StronglySorted expiresNoLater selected
    ∧ (NoDup (Batch.expiryDate <$> candidates now medicineId d) →
       StronglySorted expiresBefore selected)
    ∧ takesGreedily quantity selected
    ∧ dispensed selected = quantity.
Proof.
  intros Hq Hav.
  destruct (selectBatchesForSale_covered now medicineId quantity d Hq Hav)
    as (selected & Hrun & Hfrom & Hgreedy & Hsum).
  exists selected. repeat split; try done.
  - apply (selectedFrom_sorted Z.le _ _ Hfrom).
    apply StronglySorted_take, candidates_sorted.
  - intros Hnd. apply (selectedFrom_sorted Z.lt _ _ Hfrom).
    apply StronglySorted_strict; [by apply NoDup_fmap_take|].
    apply StronglySorted_take, candidates_sorted.
Qed.

Lemma selectBatchesForSale_fefo_witness :
  0 < 8 ∧ 8 ≤ available d2024_06_01 "1" storeAB
  ∧ ∃ selected,
      selectBatchesForSale d2024_06_01 "1" 8 storeAB = (Ok selected, storeAB)
      ∧ Forall2 selectedFrom
          (take (length selected) (candidates d2024_06_01 "1" storeAB)) selected
      ∧ StronglySorted expiresNoLater selected
      ∧ (NoDup (Batch.expiryDate <$> candidates d2024_06_01 "1" storeAB) →
         StronglySorted expiresBefore selected)
      ∧ takesGreedily 8 selected
      ∧ dispensed selected = 8.
Proof.
  assert (H0 : 0 < 8) by lia.
  assert (H1 : 8 ≤ available d2024_06_01 "1" storeAB) by (vm_compute; discriminate).
  split; [exact H0|]. split; [exact H1|].
  exact (selectBatchesForSale_fefo d2024_06_01 "1" 8 storeAB H0 H1).
Defined.

(** C1 as stated fails: two sellable batches that expire on the same day
    are both selected, so the answer is not in strictly ascending order. *)
Lemma selectBatchesForSale_ties_not_strict :
  0 < 2 ∧ 2 ≤ available d2024_06_01 "1" storeTied
  ∧ ∃ selected,
      selectBatchesForSale d2024_06_01 "1" 2 storeTied = (Ok selected, storeTied)
      ∧ ¬ StronglySorted expiresBefore selected.
Proof.
  split; [lia|]. split; [vm_compute; discriminate|].
  eexists. split; [vm_compute; reflexivity|].
  intros Hs. apply StronglySorted_inv in Hs as [_ Hall].
  apply Forall_cons in Hall as [Hlt _].
  vm_compute in Hlt. discriminate.
Qed.

(** C2.  A stored batch whose expiry date is not after the present moment,
    or that has no stock, is never part of a selection, whatever its expiry
    date and stock are; every selected entry belongs to the medicine, has
    stock, and expires in the future. *)
Theorem selectBatchesForSale_excludes now medicineId quantity d selected d' k b :
  selectBatchesForSale now medicineId quantity d = (Ok selected, d') →
  batches d !! k = Some b →
  Batch.expiryDate b ≤ now ∨ Batch.currentStock b ≤ 0 →
  (∀ s, s ∈ selected → ¬ selectedFrom b s)
  ∧ (∀ s, s ∈ selected →
       Batch.medicineId s = medicineId
       ∧ 0 < Batch.currentStock s ∧ now < Batch.expiryDate s).
Proof.
  intros Hrun Hk Hbad.
  assert (Hok : ∀ s, s ∈ selected →
            Batch.medicineId s = medicineId
            ∧ 0 < Batch.currentStock s ∧ now < Batch.expiryDate s).
  { intros s Hs.
    destruct (selectBatchesForSale_from_candidates _ _ _ _ _ _ Hrun s Hs)
      as (b' & Hb' & q & ->).
    apply elem_of_candidates in Hb'. simpl. tauto. }
  split; [|exact Hok].
  intros s Hs [q ->]. specialize (Hok _ Hs). simpl in Hok. lia.
Qed.

Lemma selectBatchesForSale_excludes_witness :
  selectBatchesForSale d2024_06_01 "1" 5 storeOldB
    = (Ok [Batch.withQuantityToDispense 5 batchB], storeOldB)
  ∧ batches storeOldB !! "OLD" = Some batchOld
  ∧ (Batch.expiryDate batchOld ≤ d2024_06_01 ∨ Batch.currentStock batchOld ≤ 0)
  ∧ (∀ s, s ∈ [Batch.withQuantityToDispense 5 batchB] → ¬ selectedFrom batchOld s)
  ∧ (∀ s, s ∈ [Batch.withQuantityToDispense 5 batchB] →
       Batch.medicineId s = "1"
       ∧ 0 < Batch.currentStock s ∧ d2024_06_01 < Batch.expiryDate s).
Proof.
  assert (H0 : selectBatchesForSale d2024_06_01 "1" 5 storeOldB
               = (Ok [Batch.withQuantityToDispense 5 batchB], storeOldB))
    by (vm_compute; reflexivity).
  assert (H1 : batches storeOldB !! "OLD" = Some batchOld)
    by (vm_compute; reflexivity).
  assert (H2 : Batch.expiryDate batchOld ≤ d2024_06_01 ∨ Batch.currentStock batchOld ≤ 0)
    by (left; vm_compute; discriminate).
  split; [exact H0|]. split; [exact H1|]. split; [exact H2|].
  exact (selectBatchesForSale_excludes _ _ _ _ _ _ _ _ H0 H1 H2).
Defined.

(** The text of the error names the missing units: two texts are the same
    only for the same number. *)
Lemma length_append (s t : string) :
  String.length (s +:+ t) = (String.length s + String.length t)%nat.
Proof. induction s as [|c s IH]; simpl; [done|by rewrite IH]. Qed.

Lemma append_inj_r (s1 s2 t : string) : s1 +:+ t = s2 +:+ t → s1 = s2.
Proof.
  revert s2. induction s1 as [|c s1 IH]; intros [|c' s2] Heq; simpl in Heq.
  - done.
  - apply (f_equal String.length) in Heq.
    rewrite !length_append in Heq. simpl in Heq. lia.
  - apply (f_equal String.length) in Heq.
    rewrite !length_append in Heq. simpl in Heq. lia.
  - injection Heq as -> Heq. f_equal. by apply IH.
Qed.

Lemma insufficient_message_inj (m n : Z) :
  "Insufficient stock. Need " +:+ pretty m +:+ " more units."
  = "Insufficient stock. Need " +:+ pretty n +:+ " more units." →
  m = n.
Proof.
  intros Heq. apply (inj (String.append "Insufficient stock. Need ")) in Heq.
  apply append_inj_r in Heq. by apply (inj pretty) in Heq.
Qed.

(** C3.  A request for more than the sellable stock of the medicine throws
    an error whose message is "Insufficient stock. Need N more units.",
    where N is the decimal numeral of the requested quantity minus the
    sellable stock, and N is the only number for which the message of the
    thrown error has this form; the store is as it was, after this call and
    after every call. *)
Theorem selectBatchesForSale_insufficient now medicineId quantity d :
  0 < quantity → available now medicineId d < quantity →
  selectBatchesForSale now medicineId quantity d
    = (Throw (mkError ("Insufficient stock. Need "
                         +:+ pretty (quantity - available now medicineId d)
                         +:+ " more units.")), d)
  ∧ (∀ shortfall,
       fst (selectBatchesForSale now medicineId quantity d)
       = Throw (mkError ("Insufficient stock. Need " +:+ pretty shortfall
                           +:+ " more units.")) →
       shortfall = quantity - available now medicineId d)
  ∧ ∀ requested, snd (selectBatchesForSale now medicineId requested d) = d.
Proof.
  intros Hq Hav.
  assert (Hthrown : selectBatchesForSale now medicineId quantity d
            = (Throw (mkError ("Insufficient stock. Need "
                                 +:+ pretty (quantity - available now medicineId d)
                                 +:+ " more units.")), d)).
  { rewrite available_candidates in *.
    destruct (allocate_spec (candidates now medicineId d) [] quantity)
      as (sel & Hrun & _); [apply candidates_in_stock|lia|].
    rewrite selectBatchesForSale_unfold, Hrun. simpl.
    replace (Z.max 0 (quantity - totalStock (candidates now medicineId d)))
      with (quantity - totalStock (candidates now medicineId d)) by lia.
    destruct (Z.ltb_spec 0 (quantity - totalStock (candidates now medicineId d)));
      [done|lia]. }
  split; [exact Hthrown|]. split.
  - intros shortfall He. rewrite Hthrown in He. cbn [fst] in He.
    symmetry. apply insufficient_message_inj. congruence.
  - intros requested. rewrite selectBatchesForSale_unfold.
    destruct (allocate _ _ _) as [sel r]. by destruct (0 <? r).
Qed.

Lemma selectBatchesForSale_insufficient_witness :
  0 < 20 ∧ available d2024_06_01 "1" storeAB = 15 ∧ available d2024_06_01 "1" storeAB < 20
  ∧ selectBatchesForSale d2024_06_01 "1" 20 storeAB
      = (Throw (mkError "Insufficient stock. Need 5 more units."), storeAB)
  ∧ (∀ shortfall,
       fst (selectBatchesForSale d2024_06_01 "1" 20 storeAB)
       = Throw (mkError ("Insufficient stock. Need " +:+ pretty shortfall
                           +:+ " more units.")) →
       shortfall = 5)
  ∧ ∀ requested, snd (selectBatchesForSale d2024_06_01 "1" requested storeAB) = storeAB.
Proof.
  assert (H0 : 0 < 20) by lia.
  assert (Hav : available d2024_06_01 "1" storeAB = 15) by (vm_compute; reflexivity).
  assert (H1 : available d2024_06_01 "1" storeAB < 20) by (vm_compute; reflexivity).
  split; [exact H0|]. split; [exact Hav|]. split; [exact H1|].
  destruct (selectBatchesForSale_insufficient d2024_06_01 "1" 20 storeAB H0 H1)
    as (Hthrown & Hcarried & Hframe).
  split; [rewrite Hthrown; vm_compute; reflexivity|].
  split; [|exact Hframe].
  intros shortfall He.
  rewrite (Hcarried shortfall He), Hav. reflexivity.
Defined.

(** C10.  A request for no units or for a negative number of units is
    answered with the empty selection: no error, nothing read into the
    answer, the store as it was. *)
Theorem selectBatchesForSale_nonpositive now medicineId quantity d :
  quantity ≤ 0 → selectBatchesForSale now medicineId quantity d = (Ok [], d).
Proof.
  intros Hq. rewrite selectBatchesForSale_unfold, allocate_nothing by done.
  destruct (Z.ltb_spec 0 quantity); [lia|done].
Qed.

Lemma selectBatchesForSale_nonpositive_witness :
  -3 ≤ 0 ∧ selectBatchesForSale d2024_06_01 "1" (-3) storeAB = (Ok [], storeAB).
Proof.
  assert (H0 : -3 ≤ 0) by lia.
  split; [exact H0|].
  exact (selectBatchesForSale_nonpositive d2024_06_01 "1" (-3) storeAB H0).
Defined.

(** ** Processing a sale *)

Lemma addNotification_db env type message w :
  db (addNotification env type message w) = db w.
Proof. done. Qed.

Lemma addEntry_unfold env entry w :
  batches (db (addEntry env entry w)) = batches (db w)
  ∧ medicines (db (addEntry env entry w)) = medicines (db w)
  ∧ sales (db (addEntry env entry w)) = sales (db w)
  ∧ scheduleH1Entries (db (addEntry env entry w))
    = scheduleH1Entries (db w) ++ [entry (randomUUID env (uuidsDrawn w))].
Proof. done. Qed.

(** The register loop leaves the other tables alone and appends one entry
    for each Schedule H1 line, in cart order. *)
Lemma addScheduleH1Entries_spec env f cart : ∀ w,
  let w' := addScheduleH1Entries env f cart w in
  batches (db w') = batches (db w)
  ∧ medicines (db w') = medicines (db w)
  ∧ sales (db w') = sales (db w)
  ∧ ∃ entries,
      scheduleH1Entries (db w') = scheduleH1Entries (db w) ++ entries
      ∧ Forall2 (λ item entry, ∃ id, entry = h1EntryOf env f item id)
                (List.filter isH1 cart) entries.
Proof.
  induction cart as [|item cart IH]; intros w; simpl.
  - repeat split. exists []. by rewrite app_nil_r.
  - unfold addScheduleH1Entries in *. simpl. destruct (isH1 item) eqn:Hitem.
    + destruct (IH (addEntry env (h1EntryOf env f item) w))
        as (Hb & Hm & Hs & entries & He & Hall).
      destruct (addEntry_unfold env (h1EntryOf env f item) w) as (Hb' & Hm' & Hs' & He').
      repeat split; [congruence..|].
      eexists (_ :: entries). split.
      * rewrite He, He', <- app_assoc. reflexivity.
      * constructor; [by eexists|done].
    + apply IH.
Qed.

Lemma processSale_empty env w :
  cartItems (store w) = [] →
  processSale env w = (CartIsEmpty, addNotification env error "Cart is empty" w).
Proof. unfold processSale. by intros ->. Qed.

(** A sale of a cart that is not empty completes, and this is what it does
    to the tables. *)
Lemma processSale_completed env w :
  cartItems (store w) ≠ [] →
  ∃ w' sale,
    processSale env w = (SaleCompleted ("INV-" +:+ pretty (now env)), w')
    ∧ medicines (db w') = medicines (db w)
    ∧ batches (db w') = updateStockLevels (cartItems (store w)) (batches (db w))
    ∧ sales (db w') = sales (db w) ++ [sale]
    ∧ Sale.items sale
      = imap (λ i item, saleItemOf (randomUUID env (uuidsDrawn w + i)) item)
             (cartItems (store w))
    ∧ Sale.gstAmount sale
      = gstAmount (calculateTotals (cartItems (store w)) (discount (form w)))
    ∧ (∃ entries,
         scheduleH1Entries (db w') = scheduleH1Entries (db w) ++ entries
         ∧ Forall2 (λ item entry, ∃ id, entry = h1EntryOf env (form w) item id)
                   (List.filter isH1 (cartItems (store w))) entries)
    ∧ cartItems (store w') = [].
Proof.
  intros Hcart. unfold processSale.
  destruct (cartItems (store w)) as [|item cart] eqn:Hc; [done|].
  cbn [length Nat.eqb]. cbv zeta.
  eexists _, _. split; [reflexivity|].
  rewrite addNotification_db. cbn [db set_form set_store].
  match goal with
  | |- context [addScheduleH1Entries env (form w) ?c ?w0] =>
      destruct (addScheduleH1Entries_spec env (form w) c w0)
        as (Hb & Hm & Hs & entries & He & Hall)
  end.
  rewrite Hm, Hb, Hs, He. cbn.
  repeat split. by exists entries.
Qed.

Lemma processSale_inv env w invoiceNumber w' :
  processSale env w = (SaleCompleted invoiceNumber, w') → cartItems (store w) ≠ [].
Proof. intros Hrun Hc. by rewrite processSale_empty in Hrun. Qed.

Lemma isH1_spec item :
  isH1 item = true ↔ Medicine.scheduleType (CartItem.medicine item) = Schedule.H1.
Proof. unfold isH1. by destruct (Medicine.scheduleType _). Qed.

Lemma or_string_spec s d :
  (s = "" → JS.or_string s d = d) ∧ (s ≠ "" → JS.or_string s d = s).
Proof. unfold JS.or_string. by case_bool_decide. Qed.

(** C6.  A completed sale appends to the Schedule H1 register exactly one
    entry per cart line whose medicine is Schedule H1, in cart order, with
    the line's quantity as [quantityDispensed]; a customer name, doctor name
    or prescription number that was left empty is entered as
    "Walk-in Customer", "Not specified" and "Not provided"; a cart without
    H1 lines adds no entry. *)
Theorem processSale_scheduleH1 env w invoiceNumber w' :
  processSale env w = (SaleCompleted invoiceNumber, w') →
  ∃ entries,
    scheduleH1Entries (db w') = scheduleH1Entries (db w) ++ entries
    ∧ Forall2
        (λ item entry,
           ScheduleH1Entry.medicineId entry = Medicine.id (CartItem.medicine item)
           ∧ ScheduleH1Entry.batchNumber entry = Batch.batchNumber (CartItem.batch item)
           ∧ ScheduleH1Entry.quantityDispensed entry = CartItem.quantity item
           ∧ (customerName (form w) = "" →
              ScheduleH1Entry.customerName entry = "Walk-in Customer")
           ∧ (customerName (form w) ≠ "" →
              ScheduleH1Entry.customerName entry = customerName (form w))
           ∧ (doctorName (form w) = "" →
              ScheduleH1Entry.doctorName entry = "Not specified")
           ∧ (doctorName (form w) ≠ "" →
              ScheduleH1Entry.doctorName entry = doctorName (form w))
           ∧ (prescriptionNumber (form w) = "" →
              ScheduleH1Entry.prescriptionNumber entry = "Not provided")
           ∧ (prescriptionNumber (form w) ≠ "" →
              ScheduleH1Entry.prescriptionNumber entry = prescriptionNumber (form w)))
        (List.filter
           (λ item, Schedule.eqb (Medicine.scheduleType (CartItem.medicine item))
                                 Schedule.H1)
           (cartItems (store w)))
        entries
    ∧ length entries
      = length (List.filter
                  (λ item, Schedule.eqb (Medicine.scheduleType (CartItem.medicine item))
                                        Schedule.H1)
                  (cartItems (store w)))
    ∧ (Forall (λ item, Medicine.scheduleType (CartItem.medicine item) ≠ Schedule.H1)
              (cartItems (store w)) →
       entries = []).
Proof.
  intros Hrun.
  destruct (processSale_completed env w (processSale_inv _ _ _ _ Hrun))
    as (w2 & sale & Hrun' & _ & _ & _ & _ & _ & (entries & He & Hall) & _).
  rewrite Hrun in Hrun'. injection Hrun' as _ <-.
  exists entries. split; [done|].
  assert (Hlen : length entries = length (List.filter isH1 (cartItems (store w))))
    by (symmetry; by eapply Forall2_length).
  split; [|split; [exact Hlen|]].
  - eapply Forall2_impl; [exact Hall|].
    intros item entry [id ->]. simpl.
    destruct (or_string_spec (customerName (form w)) "Walk-in Customer").
    destruct (or_string_spec (doctorName (form w)) "Not specified").
    destruct (or_string_spec (prescriptionNumber (form w)) "Not provided").
    repeat split; done.
  - intros Hnone. apply nil_length_inv. rewrite Hlen.
    clear -Hnone.
    induction Hnone as [|item cart Hitem _ IH]; [done|]. simpl.
    destruct (isH1 item) eqn:Hh; [|exact IH].
    by apply isH1_spec in Hh.
Qed.

Lemma processSale_scheduleH1_witness :
  processSale sampleEnv cartH1
    = (SaleCompleted "INV-1717200000000", snd (processSale sampleEnv cartH1))
  ∧ (Medicine.scheduleType ∘ CartItem.medicine) <$> cartItems (store cartH1)
    = [Schedule.H1; Schedule.GENERAL]
  ∧ ScheduleH1Entry.quantityDispensed
      <$> scheduleH1Entries (db (snd (processSale sampleEnv cartH1))) = [2]
  ∧ ScheduleH1Entry.customerName
      <$> scheduleH1Entries (db (snd (processSale sampleEnv cartH1)))
    = ["Walk-in Customer"]
  ∧ ∃ entries,
      scheduleH1Entries (db (snd (processSale sampleEnv cartH1)))
        = scheduleH1Entries (db cartH1) ++ entries
      ∧ length entries = 1%nat.
Proof.
  assert (H0 : processSale sampleEnv cartH1
               = (SaleCompleted "INV-1717200000000", snd (processSale sampleEnv cartH1)))
    by (vm_compute; reflexivity).
  split; [exact H0|].
  split; [vm_compute; reflexivity|].
  split; [vm_compute; reflexivity|].
  split; [vm_compute; reflexivity|].
  destruct (processSale_scheduleH1 _ _ _ _ H0) as (entries & He & _ & Hlen & _).
  exists entries. split; [exact He|].
  rewrite Hlen. vm_compute. reflexivity.
Defined.

(** ** The tax on a sale item *)

(** The tax stored on a sale item is NaN: it is computed from
    [item.totalPrice], a property the cart line does not have. *)
Lemma saleItemOf_gstAmount uuid item :
  SaleItem.gstAmount (saleItemOf uuid item) = JS.NaN.
Proof. reflexivity. Qed.

(** NaN is no number. *)
Lemma NaN_not_eqn n : ¬ JS.eqn JS.NaN n.
Proof. intros Heq. exact Heq. Qed.

(** C7 fails on the code.  Two units at 23 each with a discount of ten per
    cent and 12 per cent tax: the tax on the line after its share of the
    discount is (46 - 4.6) * 12 / 100 = 4.968, which is what the sale's own
    [gstAmount] holds, and the sale item holds NaN. *)
Theorem processSale_item_gstAmount_NaN :
  ∃ line sale item,
    cartItems (store cartDiscounted) = [line]
    ∧ sales (db (snd (processSale sampleEnv cartDiscounted))) = [sale]
    ∧ Sale.items sale = [item]
    ∧ JS.eqn (lineGst (discount (form cartDiscounted)) line) (JS.Num (4968 # 1000))
    ∧ JS.eqn (Sale.gstAmount sale) (JS.Num (4968 # 1000))
    ∧ SaleItem.gstAmount item = JS.NaN
    ∧ ¬ JS.eqn (SaleItem.gstAmount item) (lineGst (discount (form cartDiscounted)) line).
Proof.
  eexists _, _, _.
  split; [vm_compute; reflexivity|].
  split; [vm_compute; reflexivity|].
  split; [reflexivity|].
  split; [vm_compute; reflexivity|].
  split; [vm_compute; reflexivity|].
  split; [reflexivity|].
  apply NaN_not_eqn.
Qed.

(** ** The stock after a sale *)

Lemma withCurrentStock_twice n m b :
  Batch.withCurrentStock n (Batch.withCurrentStock m b) = Batch.withCurrentStock n b.
Proof. done. Qed.

Lemma decrementStock_lookup (bs : gmap string Batch.t) item k :
  decrementStock bs item !! k
  = (λ b, if decide (Batch.id (CartItem.batch item) = k)
          then Batch.withCurrentStock (Batch.currentStock b - CartItem.quantity item) b
          else b) <$> bs !! k.
Proof.
  unfold decrementStock.
  destruct (bs !! Batch.id (CartItem.batch item)) as [b0|] eqn:Hb0.
  - rewrite lookup_alter. destruct (decide (Batch.id (CartItem.batch item) = k)) as [<-|Hne].
    + by rewrite Hb0.
    + by destruct (bs !! k).
  - destruct (decide (Batch.id (CartItem.batch item) = k)) as [<-|Hne].
    + by rewrite Hb0.
    + by destruct (bs !! k).
Qed.

(** The row of a batch after the stock loop: its stock is down by the units
    the cart sells from it, and nothing else about it has changed; a key
    without a row still has none. *)
Lemma updateStockLevels_lookup cart : ∀ (bs : gmap string Batch.t) k,
  updateStockLevels cart bs !! k
  = (λ b, Batch.withCurrentStock (Batch.currentStock b - soldFrom k cart) b) <$> bs !! k.
Proof.
  induction cart as [|item cart IH]; intros bs k.
  - simpl. destruct (bs !! k) as [b|]; [|done]. simpl. f_equal.
    destruct b. unfold Batch.withCurrentStock. simpl. f_equal. lia.
  - unfold updateStockLevels in *. simpl foldl. rewrite IH, decrementStock_lookup.
    destruct (bs !! k) as [b|]; [|done]. simpl.
    rewrite bool_decide_decide.
    destruct (decide (Batch.id (CartItem.batch item) = k)); simpl; f_equal.
    rewrite withCurrentStock_twice. f_equal. lia.
Qed.

Lemma stockOnHand_insert (bs : gmap string Batch.t) k b :
  bs !! k = None → stockOnHand (<[k:=b]> bs) = Batch.currentStock b + stockOnHand bs.
Proof.
  intros Hk. unfold stockOnHand.
  rewrite map_fold_insert_L; [done| |done]. intros. lia.
Qed.

Lemma stockOnHand_alter (bs : gmap string Batch.t) k b n :
  bs !! k = Some b →
  stockOnHand (alter (Batch.withCurrentStock n) k bs)
  = stockOnHand bs - Batch.currentStock b + n.
Proof.
  intros Hk.
  rewrite <- (insert_delete_id bs k b Hk) at 1 2.
  rewrite alter_insert_eq.
  rewrite !stockOnHand_insert by apply lookup_delete_eq.
  simpl. lia.
Qed.

(** When every line of the cart refers to a stored batch, the stock of the
    table goes down by the units the cart sells. *)
Lemma updateStockLevels_conserves cart : ∀ (bs : gmap string Batch.t),
  Forall (λ item, is_Some (bs !! Batch.id (CartItem.batch item))) cart →
  stockOnHand bs - stockOnHand (updateStockLevels cart bs) = totalSold cart.
Proof.
  induction cart as [|item cart IH]; intros bs Hall; [simpl; lia|].
  apply Forall_cons in Hall as [[b Hb] Hall].
  unfold updateStockLevels in *. simpl foldl. simpl totalSold.
  rewrite <- (IH (decrementStock bs item)).
  - unfold decrementStock. rewrite Hb.
    rewrite (stockOnHand_alter _ _ _ _ Hb). lia.
  - eapply Forall_impl; [exact Hall|]. intros item' [b' Hb'].
    rewrite decrementStock_lookup, Hb'. by eexists.
Qed.

(** A line whose batch has no row leaves the table as it is. *)
Lemma decrementStock_missing (bs : gmap string Batch.t) item :
  bs !! Batch.id (CartItem.batch item) = None → decrementStock bs item = bs.
Proof. unfold decrementStock. by intros ->. Qed.

(** X1.  A completed sale whose cart lines all refer to stored batches:
    every row keeps everything but its stock, which is down by the units the cart
    sells from that batch (none, for a batch no line refers to), and the
    stock of the table is down by the units sold. *)
Theorem processSale_conserves_stock env w invoiceNumber w' :
  processSale env w = (SaleCompleted invoiceNumber, w') →
  Forall (λ item, is_Some (batches (db w) !! Batch.id (CartItem.batch item)))
         (cartItems (store w)) →
  (∀ k, batches (db w') !! k
        = (λ b, Batch.withCurrentStock
                  (Batch.currentStock b - soldFrom k (cartItems (store w))) b)
          <$> batches (db w) !! k)
  ∧ stockOnHand (batches (db w)) - stockOnHand (batches (db w'))
    = totalSold (cartItems (store w)).
Proof.
  intros Hrun Hall.
  destruct (processSale_completed env w (processSale_inv _ _ _ _ Hrun))
    as (w2 & sale & Hrun' & _ & Hb & _).
  rewrite Hrun in Hrun'. injection Hrun' as _ <-. rewrite Hb. split.
  - intros k. apply updateStockLevels_lookup.
  - by apply updateStockLevels_conserves.
Qed.

Lemma processSale_conserves_stock_witness :
  processSale sampleEnv cartH1
    = (SaleCompleted "INV-1717200000000", snd (processSale sampleEnv cartH1))
  ∧ Forall (λ item, is_Some (batches (db cartH1) !! Batch.id (CartItem.batch item)))
           (cartItems (store cartH1))
  ∧ (∀ k, batches (db (snd (processSale sampleEnv cartH1))) !! k
          = (λ b, Batch.withCurrentStock
                    (Batch.currentStock b - soldFrom k (cartItems (store cartH1))) b)
            <$> batches (db cartH1) !! k)
  ∧ stockOnHand (batches (db cartH1))
    - stockOnHand (batches (db (snd (processSale sampleEnv cartH1))))
    = totalSold (cartItems (store cartH1)).
Proof.
  assert (H0 : processSale sampleEnv cartH1
               = (SaleCompleted "INV-1717200000000", snd (processSale sampleEnv cartH1)))
    by (vm_compute; reflexivity).
  assert (H1 : Forall (λ item, is_Some (batches (db cartH1)
                                          !! Batch.id (CartItem.batch item)))
                      (cartItems (store cartH1))).
  { repeat constructor; eexists; vm_compute; reflexivity. }
  split; [exact H0|]. split; [exact H1|].
  exact (processSale_conserves_stock _ _ _ _ H0 H1).
Defined.

(** C4 fails on the code.  Session A checks out five units of a batch whose
    row session B has deleted: the sale completes with five units sold, and
    the stock of the table has not moved. *)
Theorem processSale_missing_batch_not_conserved :
  fst (processSale sampleEnv sessionA_at_checkout) = SaleCompleted "INV-1717200000000"
  ∧ totalSold (cartItems (store sessionA_at_checkout)) = 5
  ∧ stockOnHand (batches (db sessionA_at_checkout))
    - stockOnHand (batches (db (snd (processSale sampleEnv sessionA_at_checkout)))) = 0.
Proof. repeat split; vm_compute; reflexivity. Qed.

(** C8 fails on the code.  At session A's checkout the cart line refers to
    batch B5, which has no row any more.  The sale is stored with that line,
    no stock is decremented, and the operation reports success. *)
Theorem processSale_swallows_missing_batch :
  (Batch.id ∘ CartItem.batch) <$> cartItems (store sessionA_at_checkout) = ["B5"]
  ∧ CartItem.quantity <$> cartItems (store sessionA_at_checkout) = [5]
  ∧ batches (db sessionA_at_checkout) !! "B5" = None
  ∧ fst (processSale sampleEnv sessionA_at_checkout) = SaleCompleted "INV-1717200000000"
  ∧ batches (db (snd (processSale sampleEnv sessionA_at_checkout)))
    = batches (db sessionA_at_checkout)
  ∧ (λ i, (SaleItem.batchId i, SaleItem.quantity i))
      <$> (last (sales (db (snd (processSale sampleEnv sessionA_at_checkout))))
             ≫= λ sale, head (Sale.items sale))
    = Some ("B5", 5)
  ∧ (λ n, (Notification.type n, Notification.message n))
      <$> last (notifications (store (snd (processSale sampleEnv sessionA_at_checkout))))
    = Some (success, "Sale completed! Invoice: INV-1717200000000").
Proof. repeat split; vm_compute; reflexivity. Qed.

(** ** Stock below zero *)

Lemma store5_stockNonNegative : stockNonNegative store5.
Proof.
  intros k b Hk. unfold store5, storeOf in Hk. simpl in Hk.
  apply lookup_insert_Some in Hk as [[_ <-]|[_ Hk]]; [vm_compute; discriminate|].
  by rewrite lookup_empty in Hk.
Qed.

(** C5 fails on the code.  From a store whose only batch has five units,
    adding five units to the cart twice yields one line of ten, each
    addition having passed the availability check against the stored five;
    the sale then leaves the batch with minus five. *)
Theorem oversell_negative_stock :
  stockNonNegative store5
  ∧ CartItem.quantity
      <$> cartItems (store (run sampleEnv [AddToCart paracetamol 5; AddToCart paracetamol 5]
                                (worldOf store5)))
    = [10]
  ∧ Batch.currentStock <$> batches (db (run sampleEnv oversell (worldOf store5))) !! "B5"
    = Some (-5)
  ∧ ¬ stockNonNegative (db (run sampleEnv oversell (worldOf store5))).
Proof.
  split; [exact store5_stockNonNegative|].
  split; [vm_compute; reflexivity|]. split; [vm_compute; reflexivity|].
  intros Hnn.
  assert (Hrow : ∃ b, batches (db (run sampleEnv oversell (worldOf store5))) !! "B5" = Some b
                        ∧ Batch.currentStock b = -5)
    by (eexists; split; vm_compute; reflexivity).
  destruct Hrow as (b & Hb & Hstock).
  specialize (Hnn _ _ Hb). lia.
Qed.


(** ** Deleting a medicine *)

(** The rows the guard of [handleDeleteMedicine] finds. *)
Lemma elem_of_batchesWithStock medicineId (bs : gmap string Batch.t) b :
  b ∈ List.filter (λ batch, 0 <? Batch.currentStock batch)
        (where_medicineId_equals medicineId bs)
  ↔ (∃ k, bs !! k = Some b) ∧ Batch.medicineId b = medicineId
    ∧ 0 < Batch.currentStock b.
Proof.
  rewrite list_elem_of_In, filter_In, <- list_elem_of_In.
  rewrite elem_of_where_medicineId_equals, Z.ltb_lt. tauto.
Qed.

(** C9.  Deleting a medicine that has a batch with stock is refused: the
    handler appends one notification of type [error] with the message
    "Cannot delete medicine with existing stock. Please clear all batches
    first." and returns, with every table, the cart and the earlier
    notifications as they were.  When no batch of the medicine has stock,
    the rows of all its batches and the row of the medicine are deleted, the
    other rows stay, and the one notification appended is of type [success]
    and says that the medicine was deleted. *)
Theorem handleDeleteMedicine_guard env medicine w :
  ((∃ k b, batches (db w) !! k = Some b
           ∧ Batch.medicineId b = Medicine.id medicine
           ∧ 0 < Batch.currentStock b) →
   fst (handleDeleteMedicine env medicine w) = HasActiveStock
   ∧ db (snd (handleDeleteMedicine env medicine w)) = db w
   ∧ notifications (store (snd (handleDeleteMedicine env medicine w)))
     = notifications (store w)
       ++ [Notification.mk (randomUUID env (uuidsDrawn w)) error
             "Cannot delete medicine with existing stock. Please clear all batches first."
             (now env)]
   ∧ cartItems (store (snd (handleDeleteMedicine env medicine w))) = cartItems (store w))
  ∧ ((∀ k b, batches (db w) !! k = Some b →
             Batch.medicineId b = Medicine.id medicine →
             Batch.currentStock b ≤ 0) →
     fst (handleDeleteMedicine env medicine w) = MedicineDeleted
     ∧ medicines (db (snd (handleDeleteMedicine env medicine w)))
       = delete (Medicine.id medicine) (medicines (db w))
     ∧ (∀ k b, batches (db (snd (handleDeleteMedicine env medicine w))) !! k = Some b
               ↔ batches (db w) !! k = Some b
                 ∧ Batch.medicineId b ≠ Medicine.id medicine)
     ∧ sales (db (snd (handleDeleteMedicine env medicine w))) = sales (db w)
     ∧ scheduleH1Entries (db (snd (handleDeleteMedicine env medicine w)))
       = scheduleH1Entries (db w)
     ∧ notifications (store (snd (handleDeleteMedicine env medicine w)))
       = notifications (store w)
         ++ [Notification.mk (randomUUID env (uuidsDrawn w)) success
               ("Medicine "
                  +:+ (if bool_decide (Medicine.brandName medicine = "")
                       then Medicine.name medicine else Medicine.brandName medicine)
                  +:+ " deleted successfully")
               (now env)]).
Proof.
  unfold handleDeleteMedicine. cbv zeta. split.
  - intros (k & b & Hk & Hmed & Hstock).
    assert (Hin : b ∈ List.filter (λ batch, 0 <? Batch.currentStock batch)
                      (where_medicineId_equals (Medicine.id medicine) (batches (db w))))
      by (apply elem_of_batchesWithStock; eauto).
    destruct (List.filter _ _) as [|b0 l]; [by apply elem_of_nil in Hin|].
    simpl. split; [done|]. split; [by destruct w as [[] ? ? ?]|]. done.
  - intros Hnone.
    assert (Hnil : List.filter (λ batch, 0 <? Batch.currentStock batch)
                     (where_medicineId_equals (Medicine.id medicine) (batches (db w)))
                   = []).
    { destruct (List.filter _ _) as [|b0 l] eqn:Hl; [done|].
      assert (Hin : b0 ∈ b0 :: l) by left.
      rewrite <- Hl in Hin.
      apply elem_of_batchesWithStock in Hin as ([k Hk] & Hmed & Hstock).
      specialize (Hnone _ _ Hk Hmed). lia. }
    rewrite Hnil. simpl.
    split; [done|]. split; [done|]. split; [|done].
    intros k b. unfold delete_where_medicineId.
    by rewrite map_lookup_filter_Some.
Qed.

Lemma handleDeleteMedicine_guard_witness :
  (∃ k b, batches (db (worldOf storeAB)) !! k = Some b
          ∧ Batch.medicineId b = Medicine.id paracetamol
          ∧ 0 < Batch.currentStock b)
  ∧ (fst (handleDeleteMedicine sampleEnv paracetamol (worldOf storeAB)) = HasActiveStock
     ∧ db (snd (handleDeleteMedicine sampleEnv paracetamol (worldOf storeAB))) = storeAB
     ∧ notifications (store (snd (handleDeleteMedicine sampleEnv paracetamol (worldOf storeAB))))
       = [Notification.mk "uuid-0" error
            "Cannot delete medicine with existing stock. Please clear all batches first."
            d2024_06_01])
  ∧ (∀ k b, batches (db (worldOf storeSoldOut)) !! k = Some b →
            Batch.medicineId b = Medicine.id paracetamol →
            Batch.currentStock b ≤ 0)
  ∧ fst (handleDeleteMedicine sampleEnv paracetamol (worldOf storeSoldOut))
    = MedicineDeleted
  ∧ medicines (db (snd (handleDeleteMedicine sampleEnv paracetamol (worldOf storeSoldOut))))
    = delete "1" (medicines storeSoldOut)
  ∧ batches (db (snd (handleDeleteMedicine sampleEnv paracetamol (worldOf storeSoldOut))))
    = {[ "ALP" := batchAlp ]}
  ∧ notifications
      (store (snd (handleDeleteMedicine sampleEnv paracetamol (worldOf storeSoldOut))))
    = [Notification.mk "uuid-0" success "Medicine Crocin deleted successfully"
         d2024_06_01].
Proof.
  assert (H0 : ∃ k b, batches (db (worldOf storeAB)) !! k = Some b
                      ∧ Batch.medicineId b = Medicine.id paracetamol
                      ∧ 0 < Batch.currentStock b).
  { exists "A", batchA. repeat split; vm_compute; reflexivity. }
  assert (H1 : ∀ k b, batches (db (worldOf storeSoldOut)) !! k = Some b →
                      Batch.medicineId b = Medicine.id paracetamol →
                      Batch.currentStock b ≤ 0).
  { intros k b Hk Hmed. unfold storeSoldOut, storeOf in Hk. simpl in Hk.
    repeat (apply lookup_insert_Some in Hk as [[_ <-]|[_ Hk]];
            [first [discriminate Hmed | vm_compute; discriminate]|]).
    by rewrite lookup_empty in Hk. }
  split; [exact H0|].
  pose proof (proj1 (handleDeleteMedicine_guard sampleEnv paracetamol (worldOf storeAB)) H0)
    as (Hrefused & Hdb & Hnote & _).
  split; [split; [exact Hrefused|split; [exact Hdb|]]|].
  { rewrite Hnote. vm_compute. reflexivity. }
  split; [exact H1|].
  pose proof (proj2 (handleDeleteMedicine_guard sampleEnv paracetamol (worldOf storeSoldOut)) H1)
    as (Hout & Hmed & _ & _ & _ & Hnote').
  split; [exact Hout|]. split; [exact Hmed|].
  split; [vm_compute; reflexivity|].
  rewrite Hnote'. vm_compute. reflexivity.
Defined.


(** ** The cart *)

Lemma isLine_spec medicineId batchId item :
  isLine medicineId batchId item = true ↔ lineKey item = (medicineId, batchId).
Proof.
  unfold isLine, lineKey. rewrite andb_true_iff, !bool_decide_eq_true.
  split; [by intros [-> ->]|by intros [= -> ->]].
Qed.

Lemma find_isLine_None medicineId batchId cart :
  List.find (isLine medicineId batchId) cart = None
  ↔ (medicineId, batchId) ∉ lineKey <$> cart.
Proof.
  induction cart as [|item cart IH]; simpl.
  - split; [intros _; apply not_elem_of_nil|done].
  - destruct (isLine medicineId batchId item) eqn:Hitem.
    + apply isLine_spec in Hitem. split; [done|].
      intros Hnot. exfalso. apply Hnot. rewrite Hitem. left.
    + rewrite IH, not_elem_of_cons. split; [|tauto].
      intros Hnot. split; [|done]. intros Heq.
      symmetry in Heq. apply isLine_spec in Heq. congruence.
Qed.

Lemma find_isLine_Some medicineId batchId cart item :
  List.find (isLine medicineId batchId) cart = Some item →
  item ∈ cart ∧ lineKey item = (medicineId, batchId).
Proof.
  intros Hfind. apply find_some in Hfind as [Hin Hline].
  split; [by apply list_elem_of_In|by apply isLine_spec].
Qed.

Lemma totalSold_app l1 l2 : totalSold (l1 ++ l2) = totalSold l1 + totalSold l2.
Proof. induction l1 as [|x l1 IH]; simpl; [done|]. rewrite IH. lia. Qed.

(** Adding to the one line that has the key adds to the total. *)
Lemma totalSold_merge medicineId batchId quantity cart :
  uniqueLines cart → (medicineId, batchId) ∈ lineKey <$> cart →
  totalSold
    (List.map (λ item, if isLine medicineId batchId item
                       then CartItem.withQuantity (CartItem.quantity item + quantity) item
                       else item) cart)
  = totalSold cart + quantity.
Proof.
  unfold uniqueLines. induction cart as [|item cart IH]; intros Hnd Hin.
  - by apply elem_of_nil in Hin.
  - rewrite fmap_cons in Hnd, Hin. apply NoDup_cons in Hnd as [Hnotin Hnd]. simpl.
    destruct (isLine medicineId batchId item) eqn:Hitem.
    + apply isLine_spec in Hitem. rewrite Hitem in Hnotin. simpl.
      assert (Hsame : List.map (λ item, if isLine medicineId batchId item
                         then CartItem.withQuantity (CartItem.quantity item + quantity) item
                         else item) cart = cart).
      { clear -Hnotin. induction cart as [|x cart IH]; [done|]. simpl.
        rewrite fmap_cons in Hnotin. apply not_elem_of_cons in Hnotin as [Hx Hnotin].
        destruct (isLine medicineId batchId x) eqn:Hx'.
        - apply isLine_spec in Hx'. congruence.
        - by rewrite IH. }
      rewrite Hsame. lia.
    + apply elem_of_cons in Hin as [Heq|Hin].
      * symmetry in Heq. apply isLine_spec in Heq. congruence.
      * rewrite IH by done. lia.
Qed.

Lemma lineKey_merge medicineId batchId quantity cart :
  lineKey <$> List.map (λ item, if isLine medicineId batchId item
                          then CartItem.withQuantity (CartItem.quantity item + quantity) item
                          else item) cart
  = lineKey <$> cart.
Proof.
  induction cart as [|item cart IH]; [done|]. simpl. f_equal; [|exact IH].
  by destruct (isLine medicineId batchId item).
Qed.

Lemma addToCart_unique_total_aux medicine batch quantity s :
  uniqueLines (cartItems s) →
  uniqueLines (cartItems (addToCart medicine batch quantity s))
  ∧ totalSold (cartItems (addToCart medicine batch quantity s))
    = totalSold (cartItems s) + quantity.
Proof.
  intros Hnd. unfold addToCart.
  destruct (List.find _ (cartItems s)) as [existing|] eqn:Hfind; simpl.
  - apply find_isLine_Some in Hfind as [Hin Hkey].
    assert (Hmem : (Medicine.id medicine, Batch.id batch) ∈ lineKey <$> cartItems s)
      by (rewrite <- Hkey; by apply list_elem_of_fmap_2).
    split; [unfold uniqueLines; by rewrite lineKey_merge|by apply totalSold_merge].
  - apply find_isLine_None in Hfind. split.
    + unfold uniqueLines in *. rewrite fmap_app. apply NoDup_app.
      split; [done|]. split; [|apply NoDup_singleton].
      intros key Hkey Hkey'. apply list_elem_of_singleton in Hkey'. by subst.
    + rewrite totalSold_app. simpl. lia.
Qed.

(** X3.  [addToCart] keeps the lines of the cart pairwise distinct in
    (medicine, batch), adds exactly [quantity] to the units in the cart, and
    adds a line only when the cart has none for this medicine and batch. *)
Theorem addToCart_unique_total medicine batch quantity s :
  uniqueLines (cartItems s) →
  uniqueLines (cartItems (addToCart medicine batch quantity s))
  ∧ totalSold (cartItems (addToCart medicine batch quantity s))
    = totalSold (cartItems s) + quantity
  ∧ ((Medicine.id medicine, Batch.id batch) ∈ lineKey <$> cartItems s →
     length (cartItems (addToCart medicine batch quantity s)) = length (cartItems s))
  ∧ ((Medicine.id medicine, Batch.id batch) ∉ lineKey <$> cartItems s →
     cartItems (addToCart medicine batch quantity s)
     = cartItems s ++ [CartItem.mk medicine batch quantity]).
Proof.
  intros Hnd. unfold addToCart.
  destruct (List.find _ (cartItems s)) as [existing|] eqn:Hfind; simpl.
  - apply find_isLine_Some in Hfind as [Hin Hkey].
    assert (Hmem : (Medicine.id medicine, Batch.id batch) ∈ lineKey <$> cartItems s)
      by (rewrite <- Hkey; by apply list_elem_of_fmap_2).
    split; [unfold uniqueLines; by rewrite lineKey_merge|].
    split; [by apply totalSold_merge|].
    split; [intros _; by rewrite length_map|done].
  - apply find_isLine_None in Hfind.
    split.
    + unfold uniqueLines in *. rewrite fmap_app. apply NoDup_app.
      split; [done|]. split; [|apply NoDup_singleton].
      intros key Hkey Hkey'. apply list_elem_of_singleton in Hkey'. by subst.
    + split; [rewrite totalSold_app; simpl; lia|]. split; [done|done].
Qed.

Lemma addToCart_unique_total_witness :
  uniqueLines (cartItems (store sessionA))
  ∧ uniqueLines (cartItems (addToCart paracetamol batchB5 4 (store sessionA)))
  ∧ totalSold (cartItems (addToCart paracetamol batchB5 4 (store sessionA)))
    = totalSold (cartItems (store sessionA)) + 4
  ∧ length (cartItems (addToCart paracetamol batchB5 4 (store sessionA))) = 1%nat.
Proof.
  assert (H0 : uniqueLines (cartItems (store sessionA))).
  { unfold uniqueLines. vm_compute. apply NoDup_singleton. }
  destruct (addToCart_unique_total paracetamol batchB5 4 (store sessionA) H0)
    as (Hu & Ht & _ & _).
  split; [exact H0|]. split; [exact Hu|]. split; [exact Ht|].
  vm_compute. reflexivity.
Defined.

Lemma filter_not_isLine_id medicineId batchId cart :
  (medicineId, batchId) ∉ lineKey <$> cart →
  List.filter (λ item, negb (isLine medicineId batchId item)) cart = cart.
Proof.
  induction cart as [|item cart IH]; [done|]. rewrite fmap_cons, not_elem_of_cons.
  intros [Hne Hnot]. simpl.
  destruct (isLine medicineId batchId item) eqn:Hitem.
  - apply isLine_spec in Hitem. congruence.
  - simpl. by rewrite IH.
Qed.

Lemma find_after_removeFromCart medicineId batchId cart :
  List.find (isLine medicineId batchId)
            (List.filter (λ item, negb (isLine medicineId batchId item)) cart) = None.
Proof.
  induction cart as [|item cart IH]; [done|]. simpl.
  destruct (isLine medicineId batchId item) eqn:Hitem; simpl; [done|].
  by rewrite Hitem.
Qed.

(** X4.  Removing a line that was just added to a cart that had none for
    this medicine and batch gives the cart back. *)
Theorem removeFromCart_addToCart medicine batch quantity s :
  (Medicine.id medicine, Batch.id batch) ∉ lineKey <$> cartItems s →
  removeFromCart (Medicine.id medicine) (Batch.id batch)
                 (addToCart medicine batch quantity s) = s.
Proof.
  intros Hnot. unfold addToCart.
  rewrite (proj2 (find_isLine_None _ _ _) Hnot).
  unfold removeFromCart, set_cartItems. simpl.
  rewrite List.filter_app, filter_not_isLine_id by done. simpl.
  assert (Hline : isLine (Medicine.id medicine) (Batch.id batch)
                         (CartItem.mk medicine batch quantity) = true)
    by (by apply isLine_spec).
  rewrite Hline. simpl. rewrite app_nil_r. by destruct s.
Qed.

Lemma removeFromCart_addToCart_witness :
  ((Medicine.id alprazolam, Batch.id batchAlp) ∉ lineKey <$> cartItems (store sessionA))
  ∧ removeFromCart "2" "ALP" (addToCart alprazolam batchAlp 2 (store sessionA))
    = store sessionA.
Proof.
  assert (H0 : (Medicine.id alprazolam, Batch.id batchAlp)
               ∉ lineKey <$> cartItems (store sessionA)).
  { vm_compute. intros Hin. apply list_elem_of_singleton in Hin. discriminate. }
  split; [exact H0|].
  exact (removeFromCart_addToCart alprazolam batchAlp 2 (store sessionA) H0).
Defined.

(** X5.  Changing the quantity of a line in the cart to a positive number
    sets it (it is not added to the old quantity) and moves the line to the
    end of the cart; the other lines keep their order.  A quantity of zero or
    less removes the line. *)
Theorem updateQuantity_sets medicineId batchId newQuantity w item :
  List.find (isLine medicineId batchId) (cartItems (store w)) = Some item →
  (0 < newQuantity →
   cartItems (store (updateQuantity medicineId batchId newQuantity w))
   = List.filter (λ i, negb (isLine medicineId batchId i)) (cartItems (store w))
     ++ [CartItem.mk (CartItem.medicine item) (CartItem.batch item) newQuantity])
  ∧ (newQuantity ≤ 0 →
     cartItems (store (updateQuantity medicineId batchId newQuantity w))
     = List.filter (λ i, negb (isLine medicineId batchId i)) (cartItems (store w)))
  ∧ db (updateQuantity medicineId batchId newQuantity w) = db w.
Proof.
  intros Hfind. unfold updateQuantity.
  pose proof (find_isLine_Some _ _ _ _ Hfind) as [_ Hkey].
  injection Hkey as Hm Hb.
  destruct (Z.leb_spec newQuantity 0) as [Hle|Hgt].
  - split; [lia|]. split; [done|done].
  - rewrite Hfind. split; [|split; [lia|done]].
    intros _. simpl. unfold addToCart. simpl. rewrite Hm, Hb.
    by rewrite find_after_removeFromCart.
Qed.

Lemma updateQuantity_sets_witness :
  List.find (isLine "2" "ALP") (cartItems (store cartH1))
    = Some (CartItem.mk alprazolam (Batch.withQuantityToDispense 2 batchAlp) 2)
  ∧ CartItem.quantity <$> cartItems (store cartH1) = [2; 3]
  ∧ (λ i, (Batch.id (CartItem.batch i), CartItem.quantity i))
      <$> cartItems (store (updateQuantity "2" "ALP" 7 cartH1))
    = [("B", 3); ("ALP", 7)].
Proof.
  assert (H0 : List.find (isLine "2" "ALP") (cartItems (store cartH1))
               = Some (CartItem.mk alprazolam (Batch.withQuantityToDispense 2 batchAlp) 2))
    by (vm_compute; reflexivity).
  split; [exact H0|]. split; [vm_compute; reflexivity|].
  destruct (updateQuantity_sets "2" "ALP" 7 cartH1 _ H0) as (Hset & _ & _).
  rewrite Hset by lia. vm_compute. reflexivity.
Defined.

(** ** Adding to the cart from a search result *)

(** The loop of [handleAddToCart] over the selected batches. *)
Lemma addSelected_spec medicine selected : ∀ w,
  uniqueLines (cartItems (store w)) →
  let w' :=
    foldl (λ w' batch,
             set_store (addToCart medicine batch
                          (JS.or_Z (Batch.quantityToDispense batch) 0) (store w')) w')
          w selected in
  uniqueLines (cartItems (store w'))
  ∧ totalSold (cartItems (store w')) = totalSold (cartItems (store w)) + dispensed selected
  ∧ db w' = db w
  ∧ notifications (store w') = notifications (store w)
  ∧ uuidsDrawn w' = uuidsDrawn w.
Proof.
  induction selected as [|batch selected IH]; intros w Hnd; simpl.
  - unfold dispensed. simpl. repeat split; [done|lia].
  - destruct (addToCart_unique_total_aux medicine batch
                (JS.or_Z (Batch.quantityToDispense batch) 0) (store w) Hnd) as [Hu Ht].
    specialize (IH (set_store (addToCart medicine batch
                      (JS.or_Z (Batch.quantityToDispense batch) 0) (store w)) w) Hu).
    simpl in IH. destruct IH as (Hu' & Ht' & Hdb & Hn & Hc).
    rewrite dispensed_cons. repeat split; [done|rewrite Ht', Ht; lia|done| |done].
    rewrite Hn. unfold addToCart. by destruct (List.find _ _).
Qed.

(** A request above the sellable stock, on the level of the engine. *)
Lemma selectBatchesForSale_short now medicineId quantity d :
  0 < quantity → available now medicineId d < quantity →
  selectBatchesForSale now medicineId quantity d
  = (Throw (InsufficientStock (quantity - available now medicineId d)), d).
Proof.
  intros Hq Hav. rewrite available_candidates in *.
  destruct (allocate_spec (candidates now medicineId d) [] quantity)
    as (sel & Hrun & _); [apply candidates_in_stock|lia|].
  rewrite selectBatchesForSale_unfold, Hrun. simpl.
  replace (Z.max 0 (quantity - totalStock (candidates now medicineId d)))
    with (quantity - totalStock (candidates now medicineId d)) by lia.
  destruct (Z.ltb_spec 0 (quantity - totalStock (candidates now medicineId d)));
    [done|lia].
Qed.

(** X6.  When the sellable stock does not cover the request,
    [handleAddToCart] leaves the cart and the store as they were and adds one
    error notification whose message names the missing units. *)
Theorem handleAddToCart_insufficient env medicine requestedQuantity w :
  0 < requestedQuantity →
  available (now env) (Medicine.id medicine) (db w) < requestedQuantity →
  db (handleAddToCart env medicine requestedQuantity w) = db w
  ∧ cartItems (store (handleAddToCart env medicine requestedQuantity w))
    = cartItems (store w)
  ∧ notifications (store (handleAddToCart env medicine requestedQuantity w))
    = notifications (store w)
      ++ [Notification.mk (randomUUID env (uuidsDrawn w)) error
            ("Insufficient stock. Need "
               +:+ pretty (requestedQuantity
                           - available (now env) (Medicine.id medicine) (db w))
               +:+ " more units.")
            (now env)].
Proof.
  intros Hq Hav. unfold handleAddToCart.
  by rewrite (selectBatchesForSale_short _ _ _ _ Hq Hav).
Qed.

Lemma handleAddToCart_insufficient_witness :
  0 < 9 ∧ available (now sampleEnv) (Medicine.id paracetamol) (db sessionA) < 9
  ∧ db (handleAddToCart sampleEnv paracetamol 9 sessionA) = db sessionA
  ∧ cartItems (store (handleAddToCart sampleEnv paracetamol 9 sessionA))
    = cartItems (store sessionA)
  ∧ Notification.message
      <$> last (notifications (store (handleAddToCart sampleEnv paracetamol 9 sessionA)))
    = Some "Insufficient stock. Need 4 more units.".
Proof.
  assert (H0 : 0 < 9) by lia.
  assert (H1 : available (now sampleEnv) (Medicine.id paracetamol) (db sessionA) < 9)
    by (vm_compute; reflexivity).
  destruct (handleAddToCart_insufficient sampleEnv paracetamol 9 sessionA H0 H1)
    as (Hdb & Hcart & Hn).
  split; [exact H0|]. split; [exact H1|]. split; [exact Hdb|]. split; [exact Hcart|].
  rewrite Hn. vm_compute. reflexivity.
Defined.

(** X7.  When the sellable stock covers a request for a positive number of
    units, [handleAddToCart] adds exactly that number of units to the cart,
    keeps the cart's lines pairwise distinct in (medicine, batch), leaves the
    store as it was, and reports success. *)
Theorem handleAddToCart_adds env medicine requestedQuantity w :
  0 < requestedQuantity →
  requestedQuantity ≤ available (now env) (Medicine.id medicine) (db w) →
  uniqueLines (cartItems (store w)) →
  db (handleAddToCart env medicine requestedQuantity w) = db w
  ∧ uniqueLines (cartItems (store (handleAddToCart env medicine requestedQuantity w)))
  ∧ totalSold (cartItems (store (handleAddToCart env medicine requestedQuantity w)))
    = totalSold (cartItems (store w)) + requestedQuantity
  ∧ notifications (store (handleAddToCart env medicine requestedQuantity w))
    = notifications (store w)
      ++ [Notification.mk (randomUUID env (uuidsDrawn w)) success
            ("Added " +:+ Medicine.brandName medicine +:+ " to cart") (now env)].
Proof.
  intros Hq Hav Hnd. unfold handleAddToCart.
  destruct (selectBatchesForSale_covered _ _ _ _ Hq Hav)
    as (selected & Hrun & _ & _ & Hsum).
  rewrite Hrun.
  destruct (addSelected_spec medicine selected (set_db (db w) w) Hnd)
    as (Hu & Ht & Hdb & Hn & Hc).
  cbv zeta. split; [exact Hdb|]. split; [exact Hu|].
  split; [simpl; rewrite Ht, Hsum; done|].
  unfold addNotification. simpl. by rewrite Hn, Hc.
Qed.

Lemma handleAddToCart_adds_witness :
  0 < 8 ∧ 8 ≤ available (now sampleEnv) (Medicine.id paracetamol) (db (worldOf storeAB))
  ∧ uniqueLines (cartItems (store (worldOf storeAB)))
  ∧ totalSold (cartItems (store (handleAddToCart sampleEnv paracetamol 8 (worldOf storeAB))))
    = 8
  ∧ (λ i, (Batch.id (CartItem.batch i), CartItem.quantity i))
      <$> cartItems (store (handleAddToCart sampleEnv paracetamol 8 (worldOf storeAB)))
    = [("A", 5); ("B", 3)].
Proof.
  assert (H0 : 0 < 8) by lia.
  assert (H1 : 8 ≤ available (now sampleEnv) (Medicine.id paracetamol) (db (worldOf storeAB)))
    by (vm_compute; discriminate).
  assert (H2 : uniqueLines (cartItems (store (worldOf storeAB)))) by apply NoDup_nil_2.
  destruct (handleAddToCart_adds sampleEnv paracetamol 8 (worldOf storeAB) H0 H1 H2)
    as (_ & _ & Ht & _).
  split; [exact H0|]. split; [exact H1|]. split; [exact H2|].
  split; [exact Ht|vm_compute; reflexivity].
Defined.

(** ** The stock the header search shows *)

Lemma sellable_candidates_Permutation now medicineId d :
  candidates now medicineId d
  ≡ₚ List.filter (sellable now) (where_medicineId_equals medicineId (batches d)).
Proof. apply stable_sort_Permutation. Qed.

(** X8.  The stock that [getMedicineStockAndPrice] reports for a medicine is
    never negative, and it is exactly the largest quantity that
    [selectBatchesForSale] accepts: a request succeeds if and only if it asks
    for no more than that stock.  The query leaves the store as it was. *)
Theorem getMedicineStockAndPrice_stock now medicineId d :
  ∃ found,
    getMedicineStockAndPrice now medicineId d = (Ok found, d)
    ∧ stock found = available now medicineId d
    ∧ 0 ≤ stock found
    ∧ ∀ quantity,
        (∃ selected, selectBatchesForSale now medicineId quantity d = (Ok selected, d))
        ↔ quantity ≤ stock found.
Proof.
  eexists. split; [reflexivity|]. simpl.
  assert (Hstock : foldl (λ total batch, total + Batch.currentStock batch) 0
                     (List.filter (sellable now)
                        (where_medicineId_equals medicineId (batches d)))
                   = available now medicineId d).
  { rewrite available_candidates.
    symmetry. apply totalStock_Permutation, sellable_candidates_Permutation. }
  rewrite Hstock.
  assert (Hpos : 0 ≤ available now medicineId d).
  { rewrite available_candidates. apply totalStock_nonneg, candidates_in_stock. }
  split; [done|]. split; [done|].
  intros quantity. split.
  - intros [selected Hrun].
    destruct (Z.le_gt_cases quantity (available now medicineId d)) as [|Hgt]; [done|].
    rewrite selectBatchesForSale_short in Hrun by lia. done.
  - intros Hle. destruct (Z.le_gt_cases quantity 0) as [Hq|Hq].
    + exists []. rewrite selectBatchesForSale_unfold, allocate_nothing by done.
      by destruct (Z.ltb_spec 0 quantity); [lia|].
    + destruct (selectBatchesForSale_covered _ _ _ _ Hq Hle) as (selected & Hrun & _).
      by exists selected.
Qed.

(** ** After a medicine is deleted *)




(** ** The stock after a restock *)

Lemma available_insert now medicineId d k batch :
  batches d !! k = None →
  available now medicineId (set_batches (<[k:=batch]> (batches d)) d)
  = (if eligible now medicineId batch then Batch.currentStock batch else 0)
    + available now medicineId d.
Proof.
  intros Hk. unfold available. simpl.
  rewrite map_fold_insert_L; [|intros; repeat case_match; lia|done].
  destruct (eligible now medicineId batch); lia.
Qed.

Lemma restock_batches env medicine data w :
  restockSchema data = true →
  batches (db w) !! randomUUID env (uuidsDrawn w) = None →
  ∃ newBatch,
    db (restock env medicine data w)
    = set_batches (<[randomUUID env (uuidsDrawn w) := newBatch]> (batches (db w))) (db w)
    ∧ Batch.medicineId newBatch = Medicine.id medicine
    ∧ Batch.currentStock newBatch = rf_quantity data
    ∧ Batch.expiryDate newBatch = rf_expiryDate data
    ∧ Batch.id newBatch = randomUUID env (uuidsDrawn w).
Proof.
  intros Hvalid Hfresh. unfold restock. rewrite Hvalid. cbv zeta.
  cbn [batches db set_uuidsDrawn Batch.id]. rewrite Hfresh.
  eexists. split; [reflexivity|]. done.
Qed.

(** X10.  A restock whose data passes the schema, under an identifier that
    no batch has yet, raises the sellable stock of its medicine by the
    restocked quantity at every moment before the new batch expires, leaves
    it as it was from the expiry date on, and never changes the sellable
    stock of another medicine. *)
Theorem restock_available env medicine data w :
  restockSchema data = true →
  batches (db w) !! randomUUID env (uuidsDrawn w) = None →
  ∀ moment,
    (moment < rf_expiryDate data →
     available moment (Medicine.id medicine) (db (restock env medicine data w))
     = available moment (Medicine.id medicine) (db w) + rf_quantity data)
    ∧ (rf_expiryDate data ≤ moment →
       available moment (Medicine.id medicine) (db (restock env medicine data w))
       = available moment (Medicine.id medicine) (db w))
    ∧ (∀ other, other ≠ Medicine.id medicine →
       available moment other (db (restock env medicine data w))
       = available moment other (db w)).
Proof.
  intros Hvalid Hfresh moment.
  destruct (restock_batches env medicine data w Hvalid Hfresh)
    as (newBatch & -> & Hmed & Hstock & Hexp & _).
  assert (Hq : 1 ≤ rf_quantity data).
  { unfold restockSchema in Hvalid. rewrite !andb_true_iff in Hvalid.
    destruct Hvalid as [[[[[[_ Hquantity] _] _] _] _] _]. by apply Z.leb_le. }
  repeat split.
  - intros Hlt. rewrite available_insert by done. unfold eligible.
    rewrite Hmed, Hstock, Hexp, bool_decide_eq_true_2 by done.
    destruct (Z.ltb_spec 0 (rf_quantity data)); [|lia].
    destruct (Z.ltb_spec moment (rf_expiryDate data)); [simpl; lia|lia].
  - intros Hge. rewrite available_insert by done. unfold eligible.
    rewrite Hexp.
    destruct (Z.ltb_spec moment (rf_expiryDate data)); [lia|].
    by rewrite andb_false_r.
  - intros other Hne. rewrite available_insert by done. unfold eligible.
    rewrite Hmed, bool_decide_eq_false_2 by done. done.
Qed.

Lemma restock_available_witness :
  restockSchema restockForty = true
  ∧ batches (db (worldOf store5)) !! randomUUID sampleEnv (uuidsDrawn (worldOf store5)) = None
  ∧ d2024_06_01 < rf_expiryDate restockForty
  ∧ available d2024_06_01 "1" (db (worldOf store5)) = 5
  ∧ available d2024_06_01 "1"
      (db (restock sampleEnv paracetamol restockForty (worldOf store5))) = 5 + 40.
Proof.
  assert (H0 : restockSchema restockForty = true) by (vm_compute; reflexivity).
  assert (H1 : batches (db (worldOf store5))
                 !! randomUUID sampleEnv (uuidsDrawn (worldOf store5)) = None)
    by (vm_compute; reflexivity).
  assert (H2 : d2024_06_01 < rf_expiryDate restockForty) by (vm_compute; reflexivity).
  assert (H3 : available d2024_06_01 "1" (db (worldOf store5)) = 5)
    by (vm_compute; reflexivity).
  destruct (restock_available sampleEnv paracetamol restockForty (worldOf store5) H0 H1
              d2024_06_01) as (Hup & _ & _).
  split; [exact H0|]. split; [exact H1|]. split; [exact H2|]. split; [exact H3|].
  simpl Medicine.id in Hup. rewrite (Hup H2), H3. reflexivity.
Defined.

(** ** The sale that is stored *)

Lemma Forall2_imap_r {A B} (P : A → B → Prop) (f : nat → A → B) (l : list A) :
  (∀ i x, P x (f i x)) → Forall2 P l (imap f l).
Proof.
  revert f. induction l as [|x l IH]; intros f Hf; simpl; constructor; [done|].
  apply IH. intros i y. apply Hf.
Qed.

(** The sale record of a completed sale, field by field. *)
Lemma processSale_sale env w :
  cartItems (store w) ≠ [] →
  ∃ w' sale,
    processSale env w = (SaleCompleted ("INV-" +:+ pretty (now env)), w')
    ∧ sales (db w') = sales (db w) ++ [sale]
    ∧ Sale.invoiceNumber sale = "INV-" +:+ pretty (now env)
    ∧ Sale.items sale
      = imap (λ i item, saleItemOf (randomUUID env (uuidsDrawn w + i)) item)
             (cartItems (store w))
    ∧ Sale.totalAmount sale
      = total (calculateTotals (cartItems (store w)) (discount (form w)))
    ∧ Sale.discountAmount sale
      = discountAmount (calculateTotals (cartItems (store w)) (discount (form w)))
    ∧ Sale.customerName sale = or_undefined (customerName (form w))
    ∧ Sale.paymentMethod sale = paymentMethod (form w)
    ∧ medicines (db w') = medicines (db w)
    ∧ cartItems (store w') = []
    ∧ completedSaleItems (form w') = cartItems (store w)
    ∧ customerName (form w') = "" ∧ discount (form w') = JS.ofZ 0.
Proof.
  intros Hcart. unfold processSale.
  destruct (cartItems (store w)) as [|item cart] eqn:Hc; [done|].
  cbn [length Nat.eqb]. cbv zeta.
  eexists _, _. split; [reflexivity|].
  rewrite addNotification_db. cbn [db set_form set_store].
  match goal with
  | |- context [addScheduleH1Entries env (form w) ?c ?w0] =>
      destruct (addScheduleH1Entries_spec env (form w) c w0)
        as (Hb & Hm & Hs & entries & He & Hall)
  end.
  rewrite Hm, Hs. cbn.
  repeat split.
Qed.

(** X11.  A sale of a cart that is not empty completes and stores exactly
    one new sale.  Its items are the cart lines, one to one and in order, each
    with the medicine's brand name, the batch's identifier and number, the
    line's quantity, the batch's selling price as unit price and their
    product as total price.  The other sales and the medicines are
    unchanged, and the cart is empty afterwards. *)
Theorem processSale_stores_sale env w :
  cartItems (store w) ≠ [] →
  ∃ w' sale,
    processSale env w = (SaleCompleted ("INV-" +:+ pretty (now env)), w')
    ∧ sales (db w') = sales (db w) ++ [sale]
    ∧ Sale.invoiceNumber sale = "INV-" +:+ pretty (now env)
    ∧ Forall2
        (λ item saleItem,
           SaleItem.medicineId saleItem = Medicine.id (CartItem.medicine item)
           ∧ SaleItem.medicineName saleItem = Medicine.brandName (CartItem.medicine item)
           ∧ SaleItem.batchId saleItem = Batch.id (CartItem.batch item)
           ∧ SaleItem.batchNumber saleItem = Batch.batchNumber (CartItem.batch item)
           ∧ SaleItem.quantity saleItem = CartItem.quantity item
           ∧ SaleItem.unitPrice saleItem = Batch.sellingPrice (CartItem.batch item)
           ∧ SaleItem.totalPrice saleItem
             = JS.mul (JS.ofZ (CartItem.quantity item))
                      (Batch.sellingPrice (CartItem.batch item)))
        (cartItems (store w)) (Sale.items sale)
    ∧ medicines (db w') = medicines (db w)
    ∧ cartItems (store w') = [].
Proof.
  intros Hcart.
  destruct (processSale_sale env w Hcart)
    as (w' & sale & Hrun & Hsales & Hinv & Hitems & _ & _ & _ & _ & Hmed & Hempty & _).
  exists w', sale. repeat split; try done.
  rewrite Hitems. by apply Forall2_imap_r.
Qed.

Lemma processSale_stores_sale_witness :
  cartItems (store cartH1) ≠ []
  ∧ length (sales (db (snd (processSale sampleEnv cartH1)))) = 1%nat
  ∧ (λ i, (SaleItem.medicineName i, SaleItem.batchId i, SaleItem.quantity i))
      <$> (sales (db (snd (processSale sampleEnv cartH1))) ≫= Sale.items)
    = [("Alprax", "ALP", 2); ("Crocin", "B", 3)]
  ∧ ∃ w' sale,
      processSale sampleEnv cartH1 = (SaleCompleted "INV-1717200000000", w')
      ∧ sales (db w') = sales (db cartH1) ++ [sale]
      ∧ cartItems (store w') = [].
Proof.
  assert (H0 : cartItems (store cartH1) ≠ []) by (vm_compute; discriminate).
  destruct (processSale_stores_sale sampleEnv cartH1 H0)
    as (w' & sale & Hrun & Hsales & _ & _ & _ & Hempty).
  split; [exact H0|]. split; [vm_compute; reflexivity|]. split; [vm_compute; reflexivity|].
  exists w', sale. split; [exact Hrun|]. split; [exact Hsales|exact Hempty].
Defined.

(** ** Stock health queries *)

Lemma stable_sort_by_key {A} (key : A → Z) (l : list A) :
  StronglySorted (λ a b, key a ≤ key b) (stable_sort (λ a b, key a <=? key b) l).
Proof.
  apply Sorted_StronglySorted; [intros a b c; lia|].
  eapply Sorted_weaken; [|apply stable_sort_Sorted].
  - intros a b Hab. by apply Z.leb_le in Hab.
  - intros a b Hab. apply Z.leb_le. apply Z.leb_gt in Hab. lia.
Qed.

Lemma rows_Permutation {V} (m : gmap string V) : rows m ≡ₚ snd <$> map_to_list m.
Proof. unfold rows. by rewrite stable_sort_Permutation. Qed.

Lemma elem_of_filter_bool {A} (p : A → bool) (l : list A) x :
  x ∈ List.filter p l ↔ x ∈ l ∧ p x = true.
Proof. by rewrite !list_elem_of_In, filter_In. Qed.

(** X14.  [getLowStockMedicines] returns every stored batch whose stock is
    at or below its minimum, each as often as it is stored and no other, in
    ascending order of stock, whatever its expiry date; the store is as it
    was. *)
Theorem getLowStockMedicines_spec d :
  ∃ found,
    getLowStockMedicines d = (Ok found, d)
    ∧ found ≡ₚ List.filter (λ batch, Batch.currentStock batch <=? Batch.minStock batch)
                           (snd <$> map_to_list (batches d))
    ∧ (∀ batch, batch ∈ found
                ↔ (∃ k, batches d !! k = Some batch)
                  ∧ Batch.currentStock batch ≤ Batch.minStock batch)
    ∧ StronglySorted (λ a b, Batch.currentStock a ≤ Batch.currentStock b) found.
Proof.
  eexists. split; [reflexivity|]. unfold sortBy_currentStock. split; [|split].
  - rewrite stable_sort_Permutation. apply filter_Permutation_bool, rows_Permutation.
  - intros batch. rewrite elem_of_stable_sort, elem_of_filter_bool, elem_of_rows.
    by rewrite Z.leb_le.
  - apply (stable_sort_by_key Batch.currentStock).
Qed.

(** X15.  [getExpiringMedicines] returns every stored batch that has stock
    and expires before the threshold, each as often as it is stored and no
    other, in ascending order of expiry date.  There is no lower bound on
    the date: a batch with stock that has already expired is returned
    whenever the threshold is not before the present moment.  The store is
    as it was. *)
Theorem getExpiringMedicines_spec cal now days d :
  ∃ found,
    getExpiringMedicines cal now days d = (Ok found, d)
    ∧ found ≡ₚ List.filter (λ batch, (Batch.expiryDate batch <? plusDays cal now days)
                                      && (0 <? Batch.currentStock batch))
                           (snd <$> map_to_list (batches d))
    ∧ (∀ batch, batch ∈ found
                ↔ (∃ k, batches d !! k = Some batch)
                  ∧ 0 < Batch.currentStock batch
                  ∧ Batch.expiryDate batch < plusDays cal now days)
    ∧ StronglySorted expiresNoLater found
    ∧ (now ≤ plusDays cal now days →
       ∀ k batch, batches d !! k = Some batch → 0 < Batch.currentStock batch →
                  Batch.expiryDate batch < now → batch ∈ found).
Proof.
  eexists. split; [reflexivity|].
  unfold sortBy_expiryDate, where_expiryDate_below, sortBy_expiryDate.
  assert (Hmem : ∀ batch,
            batch ∈ stable_sort (λ a b, Batch.expiryDate a <=? Batch.expiryDate b)
                      (List.filter (λ batch, 0 <? Batch.currentStock batch)
                         (List.filter (λ batch, Batch.expiryDate batch
                                                <? plusDays cal now days)
                            (stable_sort (λ a b, Batch.expiryDate a <=? Batch.expiryDate b)
                               (rows (batches d)))))
            ↔ (∃ k, batches d !! k = Some batch)
              ∧ 0 < Batch.currentStock batch
              ∧ Batch.expiryDate batch < plusDays cal now days).
  { intros batch.
    rewrite elem_of_stable_sort, !elem_of_filter_bool, elem_of_stable_sort, elem_of_rows.
    rewrite !Z.ltb_lt. tauto. }
  split; [|split; [exact Hmem|split]].
  - rewrite stable_sort_Permutation.
    rewrite (filter_Permutation_bool _ _ _
               (filter_Permutation_bool _ _ _
                  (stable_sort_Permutation _ (rows (batches d))))).
    rewrite (filter_Permutation_bool _ _ _
               (filter_Permutation_bool _ _ _ (rows_Permutation (batches d)))).
    clear. induction (snd <$> map_to_list (batches d)) as [|b l IH]; [done|]. simpl.
    destruct (Batch.expiryDate b <? plusDays cal now days); simpl; [|exact IH].
    destruct (0 <? Batch.currentStock b); [by rewrite IH|exact IH].
  - apply (stable_sort_by_key Batch.expiryDate).
  - intros Hnow k batch Hk Hstock Hexp. apply Hmem.
    split; [by exists k|]. split; [done|lia].
Qed.

Lemma getExpiringMedicines_spec_witness :
  now sampleEnv ≤ plusDays plainCalendar (now sampleEnv) 30
  ∧ batches storeOldB !! "OLD" = Some batchOld
  ∧ 0 < Batch.currentStock batchOld
  ∧ Batch.expiryDate batchOld < now sampleEnv
  ∧ ∃ found,
      getExpiringMedicines plainCalendar (now sampleEnv) 30 storeOldB = (Ok found, storeOldB)
      ∧ batchOld ∈ found.
Proof.
  assert (H0 : now sampleEnv ≤ plusDays plainCalendar (now sampleEnv) 30)
    by (vm_compute; discriminate).
  assert (H1 : batches storeOldB !! "OLD" = Some batchOld) by (vm_compute; reflexivity).
  assert (H2 : 0 < Batch.currentStock batchOld) by (vm_compute; reflexivity).
  assert (H3 : Batch.expiryDate batchOld < now sampleEnv) by (vm_compute; reflexivity).
  destruct (getExpiringMedicines_spec plainCalendar (now sampleEnv) 30 storeOldB)
    as (found & Hrun & _ & _ & _ & Hold).
  split; [exact H0|]. split; [exact H1|]. split; [exact H2|]. split; [exact H3|].
  exists found. split; [exact Hrun|]. exact (Hold H0 _ _ H1 H2 H3).
Defined.

(** ** Restock suggestions *)

Lemma totalStock_pos b l :
  Forall (λ b, 0 < Batch.currentStock b) (b :: l) → 0 < totalStock (b :: l).
Proof.
  intros Hall. apply Forall_cons in Hall as [Hb Hl].
  rewrite totalStock_cons. pose proof (totalStock_nonneg l Hl). lia.
Qed.

Lemma sellable_in_stock now l :
  Forall (λ b, 0 < Batch.currentStock b) (List.filter (sellable now) l).
Proof.
  apply Forall_forall. intros b Hb.
  apply elem_of_filter_bool in Hb as [_ Hb]. apply sellable_spec in Hb. tauto.
Qed.

Lemma sellable_stock_available now medicineId d :
  totalStock (List.filter (sellable now) (where_medicineId_equals medicineId (batches d)))
  = available now medicineId d.
Proof.
  rewrite available_candidates. symmetry.
  apply totalStock_Permutation, sellable_candidates_Permutation.
Qed.

(** What [suggestionOf] says about a medicine it lists. *)
Lemma suggestionOf_spec now (bs : gmap string Batch.t) medicine s :
  s ∈ suggestionOf now bs medicine →
  RestockSuggestion.medicine s = medicine
  ∧ RestockSuggestion.currentStock s
    = totalStock (List.filter (sellable now)
                    (where_medicineId_equals (Medicine.id medicine) bs))
  ∧ 0 < RestockSuggestion.suggestedQuantity s
  ∧ RestockSuggestion.customQuantity s = RestockSuggestion.suggestedQuantity s
  ∧ (RestockSuggestion.isSelected s = true
     ↔ RestockSuggestion.priority s = Priority.critical)
  ∧ match RestockSuggestion.priority s with
    | Priority.critical =>
        RestockSuggestion.currentStock s = 0
        ∧ RestockSuggestion.suggestedQuantity s = 50
    | Priority.low =>
        0 < RestockSuggestion.currentStock s ≤ RestockSuggestion.minStock s
        ∧ RestockSuggestion.currentStock s + RestockSuggestion.suggestedQuantity s
          = RestockSuggestion.maxStock s
    | Priority.normal =>
        RestockSuggestion.minStock s < RestockSuggestion.currentStock s
                                     ≤ 2 * RestockSuggestion.minStock s
        ∧ RestockSuggestion.suggestedQuantity s
          = Z.max (RestockSuggestion.maxStock s - RestockSuggestion.currentStock s)
                  (RestockSuggestion.minStock s)
    end.
Proof.
  unfold suggestionOf. cbv zeta.
  pose proof (sellable_in_stock now (where_medicineId_equals (Medicine.id medicine) bs))
    as Hpos.
  fold (totalStock (List.filter (sellable now)
                      (where_medicineId_equals (Medicine.id medicine) bs))).
  destruct (List.filter (sellable now) _) as [|b rest] eqn:Hfound.
  - simpl. intros Hs. apply list_elem_of_singleton in Hs as ->. simpl.
    repeat split; done.
  - pose proof (totalStock_pos b rest Hpos) as Htotal.
    set (cur := totalStock (b :: rest)) in *.
    set (mn := Math_min (Batch.minStock b) (Batch.minStock <$> rest)).
    set (mx := Math_max (Batch.maxStock b) (Batch.maxStock <$> rest)).
    unfold suggestFor.
    destruct (Z.eqb_spec cur 0) as [|_]; [lia|].
    destruct (Z.leb_spec cur mn) as [Hlow|Hlow].
    + destruct (Z.ltb_spec 0 (mx - cur)) as [Hq|Hq]; [|by intros ?%elem_of_nil].
      intros Hs. apply list_elem_of_singleton in Hs as ->. simpl.
      repeat split; try done; lia.
    + destruct (Z.leb_spec cur (mn * 2)) as [Hnormal|Hnormal].
      * destruct (Z.ltb_spec 0 (Z.max (mx - cur) mn)) as [Hq|Hq];
          [|by intros ?%elem_of_nil].
        intros Hs. apply list_elem_of_singleton in Hs as ->. simpl.
        repeat split; try done; lia.
      * simpl. by intros ?%elem_of_nil.
Qed.

(** X16.  Every restock suggestion is for a stored medicine, reports the
    medicine's sellable stock, and suggests a positive quantity.  It is
    critical exactly when it is preselected; a critical suggestion is for a
    medicine without sellable stock and always suggests 50 units; a low one
    tops the stock up to the greatest maximum of the sellable batches; a
    normal one is for a stock above the minimum and at most twice the
    minimum.  The list is in the order critical, low, normal, and the store
    is as it was. *)
Theorem loadRestockSuggestions_spec now d :
  ∃ found,
    loadRestockSuggestions now d = (Ok found, d)
    ∧ StronglySorted
        (λ a b, Priority.order (RestockSuggestion.priority a)
                ≤ Priority.order (RestockSuggestion.priority b)) found
    ∧ ∀ s, s ∈ found →
        (∃ k, medicines d !! k = Some (RestockSuggestion.medicine s))
        ∧ RestockSuggestion.currentStock s
          = available now (Medicine.id (RestockSuggestion.medicine s)) d
        ∧ 0 < RestockSuggestion.suggestedQuantity s
        ∧ RestockSuggestion.customQuantity s = RestockSuggestion.suggestedQuantity s
        ∧ (RestockSuggestion.isSelected s = true
           ↔ RestockSuggestion.priority s = Priority.critical)
        ∧ match RestockSuggestion.priority s with
          | Priority.critical =>
              RestockSuggestion.currentStock s = 0
              ∧ RestockSuggestion.suggestedQuantity s = 50
          | Priority.low =>
              0 < RestockSuggestion.currentStock s ≤ RestockSuggestion.minStock s
              ∧ RestockSuggestion.currentStock s + RestockSuggestion.suggestedQuantity s
                = RestockSuggestion.maxStock s
          | Priority.normal =>
              RestockSuggestion.minStock s < RestockSuggestion.currentStock s
                                           ≤ 2 * RestockSuggestion.minStock s
              ∧ RestockSuggestion.suggestedQuantity s
                = Z.max (RestockSuggestion.maxStock s - RestockSuggestion.currentStock s)
                        (RestockSuggestion.minStock s)
          end.
Proof.
  eexists. split; [reflexivity|]. split.
  - apply (stable_sort_by_key (λ s, Priority.order (RestockSuggestion.priority s))).
  - intros s Hs. apply elem_of_stable_sort, list_elem_of_bind in Hs as (m & Hs & Hm).
    apply elem_of_rows in Hm.
    destruct (suggestionOf_spec now (batches d) m s Hs) as (Hmed & Hcur & Hrest).
    rewrite Hmed. split; [done|]. split; [|exact Hrest].
    rewrite Hcur. apply sellable_stock_available.
Qed.

(** X17.  A stored medicine without sellable stock is always in the list of
    restock suggestions, as a critical and preselected suggestion of 50
    units. *)
Theorem loadRestockSuggestions_out_of_stock now d k medicine :
  medicines d !! k = Some medicine →
  available now (Medicine.id medicine) d = 0 →
  ∃ found s,
    loadRestockSuggestions now d = (Ok found, d)
    ∧ s ∈ found
    ∧ RestockSuggestion.medicine s = medicine
    ∧ RestockSuggestion.priority s = Priority.critical
    ∧ RestockSuggestion.isSelected s = true
    ∧ RestockSuggestion.suggestedQuantity s = 50.
Proof.
  intros Hk Hav. rewrite <- sellable_stock_available in Hav.
  assert (Hnone : List.filter (sellable now)
                    (where_medicineId_equals (Medicine.id medicine) (batches d)) = []).
  { destruct (List.filter (sellable now) _) as [|b rest] eqn:Hfound; [done|].
    pose proof (sellable_in_stock now
                  (where_medicineId_equals (Medicine.id medicine) (batches d))) as Hpos.
    rewrite Hfound in Hpos. pose proof (totalStock_pos b rest Hpos). lia. }
  eexists _, _. split; [reflexivity|]. split.
  - apply elem_of_stable_sort, list_elem_of_bind. exists medicine. split.
    + unfold suggestionOf. cbv zeta. rewrite Hnone. simpl. left.
    + apply elem_of_rows. by exists k.
  - done.
Qed.

Lemma loadRestockSuggestions_out_of_stock_witness :
  medicines storeCD !! "1" = Some paracetamol
  ∧ available d2024_06_01 (Medicine.id paracetamol) storeCD = 0
  ∧ ∃ found s,
      loadRestockSuggestions d2024_06_01 storeCD = (Ok found, storeCD)
      ∧ s ∈ found
      ∧ RestockSuggestion.medicine s = paracetamol
      ∧ RestockSuggestion.priority s = Priority.critical
      ∧ RestockSuggestion.isSelected s = true
      ∧ RestockSuggestion.suggestedQuantity s = 50.
Proof.
  assert (H0 : medicines storeCD !! "1" = Some paracetamol) by (vm_compute; reflexivity).
  assert (H1 : available d2024_06_01 (Medicine.id paracetamol) storeCD = 0)
    by (vm_compute; reflexivity).
  split; [exact H0|]. split; [exact H1|].
  exact (loadRestockSuggestions_out_of_stock d2024_06_01 storeCD "1" paracetamol H0 H1).
Defined.

(** ** The inventory list and the low stock page *)

Lemma totalStock_filter_le (p : Batch.t → bool) l :
  Forall (λ b, 0 ≤ Batch.currentStock b) l → totalStock (List.filter p l) ≤ totalStock l.
Proof.
  induction 1 as [|b l Hb _ IH]; [done|]. simpl.
  destruct (p b); rewrite ?totalStock_cons; lia.
Qed.

Lemma existsb_elem_of {A} (p : A → bool) (l : list A) :
  existsb p l = true ↔ ∃ x, x ∈ l ∧ p x = true.
Proof.
  rewrite existsb_exists. split; intros (x & Hx & Hp); exists x;
    (split; [by apply list_elem_of_In|done]).
Qed.

(** X18.  The inventory list has one entry per stored medicine, with all the
    batches of the medicine, expired ones included, and their summed stock.
    Its status is "Out of Stock" exactly when that sum is zero, "Critical"
    when it is three or less and not zero, "Low Stock" when it is above
    three and some batch is at or below its minimum, and "In Stock" when it
    is above three and every batch is above its minimum.  When no batch of
    the medicine has negative stock, the sum is at least the stock that can
    be sold. *)
Theorem getStockStatus_spec cal now d :
  ∃ found,
    fetchMedicinesWithStock cal now d = (Ok found, d)
    ∧ MedicineWithStock.medicine <$> found = rows (medicines d)
    ∧ ∀ item, item ∈ found →
        (∀ b, b ∈ MedicineWithStock.batches item
              ↔ (∃ k, batches d !! k = Some b)
                ∧ Batch.medicineId b = Medicine.id (MedicineWithStock.medicine item))
        ∧ MedicineWithStock.totalStock item = totalStock (MedicineWithStock.batches item)
        ∧ (getStockStatus item = "Out of Stock" ↔ MedicineWithStock.totalStock item = 0)
        ∧ (getStockStatus item = "Critical"
           ↔ MedicineWithStock.totalStock item ≤ 3
             ∧ MedicineWithStock.totalStock item ≠ 0)
        ∧ (getStockStatus item = "Low Stock"
           ↔ 3 < MedicineWithStock.totalStock item
             ∧ ∃ b, b ∈ MedicineWithStock.batches item
                    ∧ Batch.currentStock b ≤ Batch.minStock b)
        ∧ (getStockStatus item = "In Stock"
           ↔ 3 < MedicineWithStock.totalStock item
             ∧ ∀ b, b ∈ MedicineWithStock.batches item →
                    Batch.minStock b < Batch.currentStock b)
        ∧ (Forall (λ b, 0 ≤ Batch.currentStock b) (MedicineWithStock.batches item) →
           available now (Medicine.id (MedicineWithStock.medicine item)) d
           ≤ MedicineWithStock.totalStock item).
Proof.
  eexists. split; [reflexivity|]. split.
  { induction (rows (medicines d)) as [|m l IH]; [done|]. simpl. by f_equal. }
  intros item Hitem. apply list_elem_of_fmap in Hitem as (m & -> & _).
  unfold medicineWithStock. cbv zeta. simpl.
  fold (totalStock (where_medicineId_equals (Medicine.id m) (batches d))).
  set (found := where_medicineId_equals (Medicine.id m) (batches d)).
  set (sum := totalStock found).
  split; [intros b; apply elem_of_where_medicineId_equals|].
  split; [done|].
  unfold getStockStatus. simpl. fold sum.
  assert (Hlow : existsb (λ batch, Batch.currentStock batch <=? Batch.minStock batch) found
                 = true
                 ↔ ∃ b, b ∈ found ∧ Batch.currentStock b ≤ Batch.minStock b).
  { rewrite existsb_elem_of. by setoid_rewrite Z.leb_le. }
  assert (Hav : Forall (λ b, 0 ≤ Batch.currentStock b) found →
                available now (Medicine.id m) d ≤ sum).
  { intros Hnn. rewrite <- sellable_stock_available. by apply totalStock_filter_le. }
  destruct (Z.eqb_spec sum 0) as [Hz|Hz].
  { repeat split; try done; try lia; intros [? ?]; lia. }
  destruct (Z.leb_spec sum 3) as [H3|H3].
  { repeat split; try done; try lia; intros [? ?]; lia. }
  rewrite orb_false_r.
  destruct (existsb _ found) eqn:Hex.
  - destruct (proj1 Hlow eq_refl) as (b & Hb & Hle).
    repeat split; try done; try lia; [by exists b|].
    intros [_ Hall]. specialize (Hall b Hb). lia.
  - assert (Hnone : ¬ ∃ b, b ∈ found ∧ Batch.currentStock b ≤ Batch.minStock b)
      by (intros Hsome; by apply Hlow in Hsome).
    repeat split; try done; try lia.
    + by intros [_ Hsome].
    + intros b Hb. destruct (Z.le_gt_cases (Batch.currentStock b) (Batch.minStock b));
        [|lia]. exfalso. apply Hnone. by exists b.
Qed.

Lemma Math_min_le l : ∀ x, Math_min x l ≤ x ∧ ∀ y, y ∈ l → Math_min x l ≤ y.
Proof.
  unfold Math_min. induction l as [|z l IH]; intros x; simpl.
  - split; [lia|]. intros y Hy. by apply elem_of_nil in Hy.
  - destruct (IH (Z.min x z)) as [Hx Hl]. split; [lia|].
    intros y Hy. apply elem_of_cons in Hy as [->|Hy]; [lia|by apply Hl].
Qed.

Lemma Math_min_elem_of l : ∀ x, Math_min x l ∈ x :: l.
Proof.
  unfold Math_min. induction l as [|z l IH]; intros x; simpl; [left|].
  specialize (IH (Z.min x z)). apply elem_of_cons in IH as [Heq|Hin].
  - rewrite Heq. destruct (Z.min_spec x z) as [[_ ->]|[_ ->]]; [left|right; left].
  - right. by right.
Qed.

(** What [lowStockItemOf] says about a medicine it lists. *)
Lemma lowStockItemOf_spec now (bs : gmap string Batch.t) medicine item :
  item ∈ lowStockItemOf now bs medicine →
  LowStockItem.medicine item = medicine
  ∧ LowStockItem.batches item
    = List.filter (sellable now) (where_medicineId_equals (Medicine.id medicine) bs)
  ∧ LowStockItem.totalStock item = totalStock (LowStockItem.batches item)
  ∧ (LowStockItem.totalStock item ≤ 10
     ∨ (LowStockItem.totalStock item ≤ 50
        ∧ ∃ b, b ∈ LowStockItem.batches item ∧ Batch.currentStock b ≤ Batch.minStock b))
  ∧ (LowStockItem.batches item = [] → LowStockItem.lowestStock item = 0)
  ∧ (∀ b, b ∈ LowStockItem.batches item →
          LowStockItem.lowestStock item ≤ Batch.currentStock b)
  ∧ (LowStockItem.batches item ≠ [] →
     ∃ b, b ∈ LowStockItem.batches item
          ∧ Batch.currentStock b = LowStockItem.lowestStock item).
Proof.
  unfold lowStockItemOf. cbv zeta.
  fold (totalStock (List.filter (sellable now)
                      (where_medicineId_equals (Medicine.id medicine) bs))).
  set (active := List.filter (sellable now) _).
  set (sum := totalStock active).
  set (lowest := match active with
                 | b :: rest => Math_min (Batch.currentStock b) (Batch.currentStock <$> rest)
                 | [] => 0
                 end).
  assert (Hlowest : (active = [] → lowest = 0)
                    ∧ (∀ b, b ∈ active → lowest ≤ Batch.currentStock b)
                    ∧ (active ≠ [] → ∃ b, b ∈ active ∧ Batch.currentStock b = lowest)).
  { unfold lowest. destruct active as [|b rest]; [repeat split; [by intros ? ?%elem_of_nil|done]|].
    destruct (Math_min_le (Batch.currentStock <$> rest) (Batch.currentStock b)) as [Hb Hrest].
    split; [done|]. split.
    - intros b' Hb'. apply elem_of_cons in Hb' as [->|Hb']; [done|].
      apply Hrest. by apply list_elem_of_fmap_2.
    - intros _.
      pose proof (Math_min_elem_of (Batch.currentStock <$> rest) (Batch.currentStock b))
        as Hin.
      change (Batch.currentStock b :: (Batch.currentStock <$> rest))
        with (Batch.currentStock <$> b :: rest) in Hin.
      apply list_elem_of_fmap in Hin as (b' & Heq & Hb'). by exists b'. }
  assert (Hbelow : existsb (λ batch, Batch.currentStock batch <=? Batch.minStock batch) active
                   = true
                   → ∃ b, b ∈ active ∧ Batch.currentStock b ≤ Batch.minStock b).
  { rewrite existsb_elem_of. by setoid_rewrite Z.leb_le. }
  assert (Hlisted : ∀ item',
            item' = LowStockItem.mk medicine active sum lowest →
            (sum ≤ 10 ∨ (sum ≤ 50 ∧ ∃ b, b ∈ active
                                         ∧ Batch.currentStock b ≤ Batch.minStock b)) →
            item ∈ [item'] →
            LowStockItem.medicine item = medicine
            ∧ LowStockItem.batches item = active
            ∧ LowStockItem.totalStock item = totalStock (LowStockItem.batches item)
            ∧ (LowStockItem.totalStock item ≤ 10
               ∨ (LowStockItem.totalStock item ≤ 50
                  ∧ ∃ b, b ∈ LowStockItem.batches item
                         ∧ Batch.currentStock b ≤ Batch.minStock b))
            ∧ (LowStockItem.batches item = [] → LowStockItem.lowestStock item = 0)
            ∧ (∀ b, b ∈ LowStockItem.batches item →
                    LowStockItem.lowestStock item ≤ Batch.currentStock b)
            ∧ (LowStockItem.batches item ≠ [] →
               ∃ b, b ∈ LowStockItem.batches item
                    ∧ Batch.currentStock b = LowStockItem.lowestStock item)).
  { intros item' -> Hwhy Hin. apply list_elem_of_singleton in Hin as ->. simpl.
    repeat split; try done; apply Hlowest. }
  destruct (Z.eqb_spec sum 0) as [Hz|Hz]; [apply (Hlisted _ eq_refl); left; lia|].
  destruct (Z.leb_spec sum 10) as [H10|H10]; [apply (Hlisted _ eq_refl); by left|].
  destruct (existsb _ active) eqn:Hex; simpl; [|by intros ?%elem_of_nil].
  destruct (Z.leb_spec sum 50) as [H50|H50]; [|by intros ?%elem_of_nil].
  apply (Hlisted _ eq_refl). right. split; [done|by apply Hbelow].
Qed.

Lemma lowStockItemOf_listed now (bs : gmap string Batch.t) medicine :
  totalStock (List.filter (sellable now)
                (where_medicineId_equals (Medicine.id medicine) bs)) ≤ 10 →
  ∃ item, item ∈ lowStockItemOf now bs medicine ∧ LowStockItem.medicine item = medicine.
Proof.
  intros Hav. unfold lowStockItemOf. cbv zeta.
  fold (totalStock (List.filter (sellable now)
                      (where_medicineId_equals (Medicine.id medicine) bs))).
  set (sum := totalStock _) in *.
  destruct (Z.eqb_spec sum 0); [eexists; split; [left|done]|].
  destruct (Z.leb_spec sum 10); [eexists; split; [left|done]|lia].
Qed.

(** X19.  Every entry of the low stock page is for a stored medicine and
    holds exactly the medicine's sellable batches and their summed stock; the
    sum is at most 10, or at most 50 with a batch at or below its minimum;
    its lowest stock is the smallest stock among those batches, or zero when
    there is none.  The entries are in ascending order of lowest stock, and
    every stored medicine with a sellable stock of at most 10 has an entry.
    The store is as it was. *)
Theorem loadLowStockItems_spec now d :
  ∃ found,
    loadLowStockItems now d = (Ok found, d)
    ∧ StronglySorted
        (λ a b, LowStockItem.lowestStock a ≤ LowStockItem.lowestStock b) found
    ∧ (∀ item, item ∈ found →
         (∃ k, medicines d !! k = Some (LowStockItem.medicine item))
         ∧ (∀ b, b ∈ LowStockItem.batches item
                 ↔ (∃ k, batches d !! k = Some b)
                   ∧ Batch.medicineId b = Medicine.id (LowStockItem.medicine item)
                   ∧ 0 < Batch.currentStock b ∧ now < Batch.expiryDate b)
         ∧ LowStockItem.totalStock item
           = available now (Medicine.id (LowStockItem.medicine item)) d
         ∧ (LowStockItem.totalStock item ≤ 10
            ∨ (LowStockItem.totalStock item ≤ 50
               ∧ ∃ b, b ∈ LowStockItem.batches item
                      ∧ Batch.currentStock b ≤ Batch.minStock b))
         ∧ (LowStockItem.batches item = [] → LowStockItem.lowestStock item = 0)
         ∧ (∀ b, b ∈ LowStockItem.batches item →
                 LowStockItem.lowestStock item ≤ Batch.currentStock b)
         ∧ (LowStockItem.batches item ≠ [] →
            ∃ b, b ∈ LowStockItem.batches item
                 ∧ Batch.currentStock b = LowStockItem.lowestStock item))
    ∧ (∀ k medicine,
         medicines d !! k = Some medicine →
         available now (Medicine.id medicine) d ≤ 10 →
         ∃ item, item ∈ found ∧ LowStockItem.medicine item = medicine).
Proof.
  eexists. split; [reflexivity|]. split; [|split].
  - apply (stable_sort_by_key LowStockItem.lowestStock).
  - intros item Hitem.
    apply elem_of_stable_sort, list_elem_of_bind in Hitem as (m & Hitem & Hm).
    apply elem_of_rows in Hm.
    destruct (lowStockItemOf_spec now (batches d) m item Hitem)
      as (Hmed & Hbatches & Htotal & Hrest).
    rewrite Hmed. split; [done|]. split; [|split; [|exact Hrest]].
    + intros b. rewrite Hbatches, elem_of_filter_bool, elem_of_where_medicineId_equals,
        sellable_spec. tauto.
    + rewrite Htotal, Hbatches. apply sellable_stock_available.
  - intros k m Hk Hav. rewrite <- sellable_stock_available in Hav.
    destruct (lowStockItemOf_listed now (batches d) m Hav) as (item & Hitem & Hmed).
    exists item. split; [|exact Hmed].
    apply elem_of_stable_sort, list_elem_of_bind. exists m.
    split; [exact Hitem|apply elem_of_rows; by exists k].
Qed.

(** ** Selling what one selection proposes *)

Lemma NoDup_fmap_filter_bool {A B} (f : A → B) (p : A → bool) (l : list A) :
  NoDup (f <$> l) → NoDup (f <$> List.filter p l).
Proof.
  induction l as [|x l IH]; [done|]. rewrite fmap_cons, NoDup_cons. intros [Hx Hl].
  simpl. destruct (p x); [|by apply IH].
  rewrite fmap_cons. apply NoDup_cons. split; [|by apply IH].
  intros Hin. apply Hx. apply list_elem_of_fmap in Hin as (y & -> & Hy).
  apply elem_of_filter_bool in Hy as [Hy _]. by apply list_elem_of_fmap_2.
Qed.

(** In a table keyed by [id], the candidates have pairwise distinct ids. *)
Lemma candidates_NoDup_id now medicineId d :
  keyedById d → NoDup (Batch.id <$> candidates now medicineId d).
Proof.
  intros Hkeyed.
  rewrite (fmap_Permutation _ _ _ (sellable_candidates_Permutation now medicineId d)).
  apply NoDup_fmap_filter_bool. unfold where_medicineId_equals.
  apply NoDup_fmap_filter_bool.
  rewrite (fmap_Permutation _ _ _ (rows_Permutation (batches d))).
  assert (Hids : Batch.id <$> (snd <$> map_to_list (batches d))
                 = fst <$> map_to_list (batches d)).
  { assert (Hall : Forall (λ kv, Batch.id (snd kv) = fst kv) (map_to_list (batches d))).
    { apply Forall_forall. intros [k b] Hkb. apply elem_of_map_to_list in Hkb.
      by apply Hkeyed. }
    induction Hall as [|kv l Hkv _ IH]; [done|].
    rewrite !fmap_cons. f_equal; [exact Hkv|exact IH]. }
  rewrite Hids. apply NoDup_fst_map_to_list.
Qed.

Lemma selectedFrom_ids l sel :
  Forall2 selectedFrom l sel → Batch.id <$> sel = Batch.id <$> l.
Proof.
  induction 1 as [|b s l sel [q ->] _ IH]; [done|].
  rewrite !fmap_cons. f_equal; done.
Qed.

(** From a cart that has no line for any of the selected batches, the loop
    of [handleAddToCart] appends one line per selected batch. *)
Lemma addSelected_appends medicine selected : ∀ w,
  NoDup (Batch.id <$> selected) →
  (∀ b, b ∈ selected →
        (Medicine.id medicine, Batch.id b) ∉ lineKey <$> cartItems (store w)) →
  cartItems (store
    (foldl (λ w' batch,
              set_store (addToCart medicine batch
                           (JS.or_Z (Batch.quantityToDispense batch) 0) (store w')) w')
           w selected))
  = cartItems (store w)
    ++ ((λ b, CartItem.mk medicine b (JS.or_Z (Batch.quantityToDispense b) 0))
          <$> selected).
Proof.
  induction selected as [|b selected IH]; intros w Hnd Hfresh; simpl.
  - by rewrite app_nil_r.
  - rewrite fmap_cons in Hnd. apply NoDup_cons in Hnd as [Hb Hnd].
    rewrite IH; [|done|].
    + simpl. unfold addToCart.
      rewrite (proj2 (find_isLine_None _ _ _) (Hfresh b ltac:(left))). simpl.
      by rewrite <- app_assoc.
    + intros b' Hb'. simpl. unfold addToCart.
      rewrite (proj2 (find_isLine_None _ _ _) (Hfresh b ltac:(left))). simpl.
      rewrite fmap_app. apply not_elem_of_app. split; [apply Hfresh; by right|].
      simpl. intros Hin. apply list_elem_of_singleton in Hin. injection Hin as Hid.
      apply Hb. rewrite <- Hid. by apply list_elem_of_fmap_2.
Qed.

Lemma soldFrom_not_selected medicine k selected :
  k ∉ Batch.id <$> selected →
  soldFrom k ((λ b, CartItem.mk medicine b (JS.or_Z (Batch.quantityToDispense b) 0))
                <$> selected) = 0.
Proof.
  induction selected as [|b selected IH]; [done|].
  rewrite fmap_cons, not_elem_of_cons. intros [Hne Hk]. simpl.
  rewrite bool_decide_eq_false_2 by done. by apply IH.
Qed.

(** The units a cart of selected batches sells from a row do not exceed
    the row's stock, when each selected batch proposes no more than the
    stock of the row it names and no two name the same row. *)
Lemma soldFrom_selected_le medicine (bs : gmap string Batch.t) selected :
  NoDup (Batch.id <$> selected) →
  Forall (λ s, ∃ row, bs !! Batch.id s = Some row
                      ∧ JS.or_Z (Batch.quantityToDispense s) 0 ≤ Batch.currentStock row)
         selected →
  ∀ k row, bs !! k = Some row → 0 ≤ Batch.currentStock row →
    soldFrom k ((λ b, CartItem.mk medicine b (JS.or_Z (Batch.quantityToDispense b) 0))
                  <$> selected)
    ≤ Batch.currentStock row.
Proof.
  induction selected as [|s selected IH]; intros Hnd Hall k row Hk Hrow; [done|].
  rewrite fmap_cons in Hnd. apply NoDup_cons in Hnd as [Hs Hnd].
  apply Forall_cons in Hall as [(row' & Hrow' & Hle) Hall]. simpl.
  case_bool_decide as Hid.
  - subst k. rewrite (soldFrom_not_selected _ _ _ Hs). simplify_eq. lia.
  - by apply IH.
Qed.

Lemma takesGreedily_le selected : ∀ remaining,
  takesGreedily remaining selected →
  Forall (λ s, JS.or_Z (Batch.quantityToDispense s) 0 ≤ Batch.currentStock s) selected.
Proof.
  induction selected as [|s selected IH]; intros remaining; [constructor|].
  simpl. intros [Hq Hrest]. constructor; [|by eapply IH].
  rewrite Hq, or_Z_0. lia.
Qed.

Lemma updateStockLevels_keyed cart (bs : gmap string Batch.t) d :
  keyedById d → bs = batches d →
  ∀ k b, updateStockLevels cart bs !! k = Some b → Batch.id b = k.
Proof.
  intros Hkeyed -> k b. rewrite updateStockLevels_lookup.
  destruct (batches d !! k) as [row|] eqn:Hrow; [|done].
  simpl. intros [= <-]. simpl. by apply Hkeyed.
Qed.

(** The cart after [handleAddToCart] from an empty cart, for a request the
    stock covers: one line per selected batch, each naming a stored row and
    proposing no more than the row's stock. *)
Lemma handleAddToCart_fresh env medicine quantity w :
  cartItems (store w) = [] → keyedById (db w) →
  0 < quantity → quantity ≤ available (now env) (Medicine.id medicine) (db w) →
  ∃ selected,
    cartItems (store (handleAddToCart env medicine quantity w))
    = (λ b, CartItem.mk medicine b (JS.or_Z (Batch.quantityToDispense b) 0)) <$> selected
    ∧ db (handleAddToCart env medicine quantity w) = db w
    ∧ NoDup (Batch.id <$> selected)
    ∧ dispensed selected = quantity
    ∧ Forall (λ s, ∃ row, batches (db w) !! Batch.id s = Some row
                          ∧ JS.or_Z (Batch.quantityToDispense s) 0
                            ≤ Batch.currentStock row) selected.
Proof.
  intros Hempty Hkeyed Hq Hav.
  destruct (selectBatchesForSale_covered _ _ _ _ Hq Hav)
    as (selected & Hrun & Hfrom & Hgreedy & Hsum).
  assert (Hnd : NoDup (Batch.id <$> selected)).
  { rewrite (selectedFrom_ids _ _ Hfrom). by apply NoDup_fmap_take, candidates_NoDup_id. }
  exists selected. unfold handleAddToCart. rewrite Hrun. cbv zeta.
  assert (Hunique : uniqueLines (cartItems (store (set_db (db w) w))))
    by (simpl; rewrite Hempty; apply NoDup_nil_2).
  destruct (addSelected_spec medicine selected (set_db (db w) w) Hunique)
    as (_ & _ & Hdb & _ & _).
  split; [|split; [exact Hdb|split; [exact Hnd|split; [exact Hsum|]]]].
  - change (cartItems (store (addNotification ?e ?t ?m ?x))) with (cartItems (store x)).
    rewrite addSelected_appends; [by simpl; rewrite Hempty|done|].
    intros b _. simpl. rewrite Hempty. apply not_elem_of_nil.
  - pose proof (takesGreedily_le _ _ Hgreedy) as Hle.
    apply Forall_forall. intros s Hs.
    rewrite Forall_forall in Hle. specialize (Hle s Hs).
    apply list_elem_of_lookup in Hs as [i Hi].
    destruct (Forall2_lookup_r _ _ _ _ _ Hfrom Hi) as (row & Hrow & q & ->).
    apply lookup_take_Some in Hrow as [Hrow _].
    apply list_elem_of_lookup_2, elem_of_candidates in Hrow as ([k Hk] & _).
    exists row. split; [|exact Hle].
    simpl. by rewrite (Hkeyed _ _ Hk).
Qed.

(** X20.  From an empty cart and a batches table keyed by id in which no
    stock is negative, adding a covered request for a positive quantity to
    the cart and then processing the sale completes, leaves no stock
    negative, keeps the table keyed by id, and lowers the stock of the table
    by exactly the requested quantity. *)
Theorem sale_of_fresh_selection env1 env2 medicine quantity w :
  cartItems (store w) = [] → keyedById (db w) → stockNonNegative (db w) →
  0 < quantity → quantity ≤ available (now env1) (Medicine.id medicine) (db w) →
  fst (processSale env2 (handleAddToCart env1 medicine quantity w))
    = SaleCompleted ("INV-" +:+ pretty (now env2))
  ∧ stockNonNegative
      (db (snd (processSale env2 (handleAddToCart env1 medicine quantity w))))
  ∧ keyedById (db (snd (processSale env2 (handleAddToCart env1 medicine quantity w))))
  ∧ stockOnHand (batches (db w))
    - stockOnHand
        (batches (db (snd (processSale env2 (handleAddToCart env1 medicine quantity w)))))
    = quantity.
Proof.
  intros Hempty Hkeyed Hnn Hq Hav.
  destruct (handleAddToCart_fresh env1 medicine quantity w Hempty Hkeyed Hq Hav)
    as (selected & Hcart & Hdb & Hnd & Hsum & Hrows).
  set (w1 := handleAddToCart env1 medicine quantity w) in *.
  assert (Hne : cartItems (store w1) ≠ []).
  { rewrite Hcart. destruct selected; [|done].
    unfold dispensed in Hsum. simpl in Hsum. lia. }
  destruct (processSale_completed env2 w1 Hne) as (w' & sale & Hrun & _ & Hb & _).
  rewrite Hrun. simpl. rewrite Hdb in Hb.
  split; [done|]. split; [|split].
  - intros k b Hk. rewrite Hb, updateStockLevels_lookup in Hk.
    destruct (batches (db w) !! k) as [row|] eqn:Hrow; [|done].
    simpl in Hk. injection Hk as <-. simpl. rewrite Hcart.
    pose proof (soldFrom_selected_le medicine (batches (db w)) selected Hnd Hrows
                  k row Hrow (Hnn _ _ Hrow)). lia.
  - intros k b Hk. rewrite Hb in Hk. by eapply updateStockLevels_keyed.
  - rewrite Hb, updateStockLevels_conserves.
    + rewrite Hcart. rewrite <- Hsum. clear.
      induction selected as [|s selected IH]; [done|].
      rewrite dispensed_cons, fmap_cons. simpl totalSold. f_equal. exact IH.
    + rewrite Hcart. apply Forall_fmap, Forall_forall. intros s Hs.
      rewrite Forall_forall in Hrows. destruct (Hrows s Hs) as (row & Hrow & _).
      simpl. by exists row.
Qed.

Lemma storeAB_keyedById : keyedById storeAB.
Proof.
  intros k b Hk. unfold storeAB, storeOf in Hk. simpl in Hk.
  repeat (apply lookup_insert_Some in Hk as [[<- <-]|[_ Hk]]; [done|]).
  by rewrite lookup_empty in Hk.
Qed.

Lemma storeAB_stockNonNegative : stockNonNegative storeAB.
Proof.
  intros k b Hk. unfold storeAB, storeOf in Hk. simpl in Hk.
  repeat (apply lookup_insert_Some in Hk as [[_ <-]|[_ Hk]]; [vm_compute; discriminate|]).
  by rewrite lookup_empty in Hk.
Qed.

Lemma sale_of_fresh_selection_witness :
  cartItems (store (worldOf storeAB)) = []
  ∧ keyedById (db (worldOf storeAB))
  ∧ stockNonNegative (db (worldOf storeAB))
  ∧ 0 < 8
  ∧ 8 ≤ available (now sampleEnv) (Medicine.id paracetamol) (db (worldOf storeAB))
  ∧ (λ b, (Batch.id b, Batch.currentStock b))
      <$> rows (batches (db (snd (processSale sampleEnv
                 (handleAddToCart sampleEnv paracetamol 8 (worldOf storeAB))))))
    = [("A", 0); ("B", 7)]
  ∧ stockNonNegative
      (db (snd (processSale sampleEnv
                  (handleAddToCart sampleEnv paracetamol 8 (worldOf storeAB)))))
  ∧ stockOnHand (batches (db (worldOf storeAB)))
    - stockOnHand
        (batches (db (snd (processSale sampleEnv
                             (handleAddToCart sampleEnv paracetamol 8 (worldOf storeAB))))))
    = 8.
Proof.
  assert (H0 : cartItems (store (worldOf storeAB)) = []) by reflexivity.
  assert (H3 : 0 < 8) by lia.
  assert (H4 : 8 ≤ available (now sampleEnv) (Medicine.id paracetamol)
                   (db (worldOf storeAB))) by (vm_compute; discriminate).
  destruct (sale_of_fresh_selection sampleEnv sampleEnv paracetamol 8 (worldOf storeAB)
              H0 storeAB_keyedById storeAB_stockNonNegative H3 H4)
    as (_ & Hnn & _ & Hsum).
  split; [exact H0|]. split; [exact storeAB_keyedById|].
  split; [exact storeAB_stockNonNegative|]. split; [exact H3|]. split; [exact H4|].
  split; [vm_compute; reflexivity|]. split; [exact Hnn|exact Hsum].
Defined.

(** ** The quantities of a selection *)

(** The loop over batches that all have stock, asked for a positive
    quantity: every batch it selects gets a positive quantity within its
    stock, and every selected batch but the last is taken whole. *)
Lemma allocate_whole l : ∀ acc r,
  Forall (λ b, 0 < Batch.currentStock b) l → 0 < r →
  ∃ sel,
    fst (allocate l acc r) = acc ++ sel
    ∧ Forall (λ s, ∃ q, Batch.quantityToDispense s = Some q
                        ∧ 0 < q ≤ Batch.currentStock s) sel
    ∧ ∀ i s, sel !! i = Some s → (S i < length sel)%nat →
             Batch.quantityToDispense s = Some (Batch.currentStock s).
Proof.
  induction l as [|b l IH]; intros acc r Hl Hr.
  - exists []. simpl. rewrite app_nil_r. repeat split; [constructor|].
    intros i s Hi. by rewrite lookup_nil in Hi.
  - apply Forall_cons in Hl as [Hb Hl]. simpl.
    destruct (Z.leb_spec r 0) as [|_]; [lia|].
    destruct (Z.le_gt_cases r (Batch.currentStock b)) as [Hlast|Hmore].
    + exists [Batch.withQuantityToDispense (Z.min r (Batch.currentStock b)) b].
      rewrite allocate_nothing by lia. simpl. repeat split.
      * constructor; [|constructor]. eexists. split; [reflexivity|]. simpl. lia.
      * intros [|i] s Hi Hlen; simpl in *; lia.
    + destruct (IH (acc ++ [Batch.withQuantityToDispense
                              (Z.min r (Batch.currentStock b)) b])
                   (r - Z.min r (Batch.currentStock b)) Hl)
        as (sel & Hrun & Hpos & Hwhole); [lia|].
      exists (Batch.withQuantityToDispense (Z.min r (Batch.currentStock b)) b :: sel).
      rewrite Hrun, <- app_assoc. simpl. repeat split.
      * constructor; [|exact Hpos]. eexists. split; [reflexivity|]. simpl. lia.
      * intros [|i] s Hi Hlen; simpl in *.
        -- injection Hi as <-. simpl. f_equal. lia.
        -- apply (Hwhole i s Hi). lia.
Qed.

(** X21.  In every selection that [selectBatchesForSale] returns, each
    batch carries a quantity of at least one unit and at most its stock, and
    every batch but the last is taken whole: only the last selected batch can
    be left with stock. *)
Theorem selectBatchesForSale_quantities now medicineId quantity d selected d' :
  selectBatchesForSale now medicineId quantity d = (Ok selected, d') →
  Forall (λ s, ∃ q, Batch.quantityToDispense s = Some q
                    ∧ 0 < q ≤ Batch.currentStock s) selected
  ∧ ∀ i s, selected !! i = Some s → (S i < length selected)%nat →
           Batch.quantityToDispense s = Some (Batch.currentStock s).
Proof.
  rewrite selectBatchesForSale_unfold. intros Hrun.
  destruct (Z.le_gt_cases quantity 0) as [Hq|Hq].
  - rewrite allocate_nothing in Hrun by done.
    destruct (0 <? quantity); [done|]. injection Hrun as <- <-.
    split; [constructor|]. intros i s Hi. by rewrite lookup_nil in Hi.
  - destruct (allocate_whole (candidates now medicineId d) [] quantity)
      as (sel & Hsel & Hpos & Hwhole); [apply candidates_in_stock|lia|].
    destruct (allocate _ _ _) as [sel' r]. simpl in Hsel. subst sel'.
    destruct (0 <? r); [done|]. by injection Hrun as <- <-.
Qed.

Lemma selectBatchesForSale_quantities_witness :
  selectBatchesForSale d2024_06_01 "1" 8 storeAB
    = (Ok [Batch.withQuantityToDispense 5 batchA; Batch.withQuantityToDispense 3 batchB],
       storeAB)
  ∧ Forall (λ s, ∃ q, Batch.quantityToDispense s = Some q
                      ∧ 0 < q ≤ Batch.currentStock s)
           [Batch.withQuantityToDispense 5 batchA; Batch.withQuantityToDispense 3 batchB]
  ∧ Batch.quantityToDispense (Batch.withQuantityToDispense 5 batchA)
    = Some (Batch.currentStock (Batch.withQuantityToDispense 5 batchA)).
Proof.
  assert (H0 : selectBatchesForSale d2024_06_01 "1" 8 storeAB
               = (Ok [Batch.withQuantityToDispense 5 batchA;
                      Batch.withQuantityToDispense 3 batchB], storeAB))
    by (vm_compute; reflexivity).
  destruct (selectBatchesForSale_quantities _ _ _ _ _ _ H0) as [Hpos Hwhole].
  split; [exact H0|]. split; [exact Hpos|].
  apply (Hwhole 0%nat); [reflexivity|simpl; lia].
Defined.

(** ** Notifications *)

(** X22.  Removing the notification that [addNotification] has just added,
    by its identifier, gives the notifications back as they were, provided no
    earlier notification has that identifier; the cart is not touched. *)
Theorem removeNotification_addNotification env type message w :
  Forall (λ n, Notification.id n ≠ randomUUID env (uuidsDrawn w))
         (notifications (store w)) →
  removeNotification (randomUUID env (uuidsDrawn w))
                     (store (addNotification env type message w))
  = store w.
Proof.
  intros Hfresh. unfold removeNotification, addNotification. simpl.
  rewrite List.filter_app. simpl. rewrite bool_decide_eq_true_2 by done. simpl.
  rewrite app_nil_r.
  assert (Hsame : List.filter
                    (λ n, negb (bool_decide (Notification.id n
                                             = randomUUID env (uuidsDrawn w))))
                    (notifications (store w)) = notifications (store w)).
  { induction Hfresh as [|n l Hn _ IH]; [done|]. simpl.
    rewrite bool_decide_eq_false_2 by done. simpl. by rewrite IH. }
  rewrite Hsame. by destruct (store w).
Qed.

Lemma removeNotification_addNotification_witness :
  Forall (λ n, Notification.id n ≠ randomUUID sampleEnv (uuidsDrawn sessionA))
         (notifications (store sessionA))
  ∧ length (notifications (store sessionA)) = 1%nat
  ∧ removeNotification (randomUUID sampleEnv (uuidsDrawn sessionA))
                       (store (addNotification sampleEnv info "note" sessionA))
    = store sessionA.
Proof.
  assert (H0 : Forall (λ n, Notification.id n ≠ randomUUID sampleEnv (uuidsDrawn sessionA))
                      (notifications (store sessionA))).
  { repeat constructor. vm_compute. discriminate. }
  split; [exact H0|]. split; [vm_compute; reflexivity|].
  exact (removeNotification_addNotification sampleEnv info "note" sessionA H0).
Defined.

(** ** The queries on sample stores *)

Lemma getMedicineStockAndPrice_stock_witness :
  ∃ found,
    getMedicineStockAndPrice d2024_06_01 "1" storeAB = (Ok found, storeAB)
    ∧ stock found = 15
    ∧ (∃ selected, selectBatchesForSale d2024_06_01 "1" 15 storeAB = (Ok selected, storeAB))
    ∧ ¬ (∃ selected, selectBatchesForSale d2024_06_01 "1" 16 storeAB
                     = (Ok selected, storeAB)).
Proof.
  destruct (getMedicineStockAndPrice_stock d2024_06_01 "1" storeAB)
    as (found & Hrun & Hstock & _ & Hiff).
  assert (H15 : stock found = 15) by (rewrite Hstock; vm_compute; reflexivity).
  exists found. split; [exact Hrun|]. split; [exact H15|]. split.
  - apply Hiff. lia.
  - intros Hsel. apply Hiff in Hsel. lia.
Defined.

Lemma getLowStockMedicines_spec_witness :
  ∃ found,
    getLowStockMedicines storeSoldOut = (Ok found, storeSoldOut)
    ∧ batchE1 ∈ found ∧ (batchAlp ∉ found)
    ∧ StronglySorted (λ a b, Batch.currentStock a ≤ Batch.currentStock b) found.
Proof.
  destruct (getLowStockMedicines_spec storeSoldOut) as (found & Hrun & _ & Hmem & Hsorted).
  exists found. split; [exact Hrun|]. split; [|split; [|exact Hsorted]].
  - apply Hmem. split; [exists "E1"; vm_compute; reflexivity|vm_compute; discriminate].
  - intros Hin. apply Hmem in Hin as [_ Hle]. vm_compute in Hle. by apply Hle.
Defined.

Lemma loadRestockSuggestions_spec_witness :
  ∃ found,
    loadRestockSuggestions d2024_06_01 storeH1 = (Ok found, storeH1)
    ∧ (λ s, (Medicine.id (RestockSuggestion.medicine s), RestockSuggestion.priority s,
             RestockSuggestion.currentStock s, RestockSuggestion.suggestedQuantity s))
        <$> found
      = [("1", Priority.low, 10, 490)]
    ∧ ∀ s, s ∈ found →
        RestockSuggestion.currentStock s
          = available d2024_06_01 (Medicine.id (RestockSuggestion.medicine s)) storeH1
        ∧ 0 < RestockSuggestion.suggestedQuantity s.
Proof.
  destruct (loadRestockSuggestions_spec d2024_06_01 storeH1) as (found & Hrun & _ & Hall).
  exists found. split; [exact Hrun|]. split.
  - vm_compute in Hrun. injection Hrun as <-. vm_compute. reflexivity.
  - intros s Hs. destruct (Hall s Hs) as (_ & Hcur & Hq & _). by split.
Defined.

Lemma getStockStatus_spec_witness :
  ∃ found,
    fetchMedicinesWithStock plainCalendar d2024_06_01 storeOldB = (Ok found, storeOldB)
    ∧ (λ item, (getStockStatus item, MedicineWithStock.totalStock item)) <$> found
      = [("Low Stock", 110)]
    ∧ available d2024_06_01 "1" storeOldB = 10
    ∧ ∀ item, item ∈ found →
        (getStockStatus item = "Out of Stock" ↔ MedicineWithStock.totalStock item = 0)
        ∧ (Forall (λ b, 0 ≤ Batch.currentStock b) (MedicineWithStock.batches item) →
           available d2024_06_01 (Medicine.id (MedicineWithStock.medicine item)) storeOldB
           ≤ MedicineWithStock.totalStock item).
Proof.
  destruct (getStockStatus_spec plainCalendar d2024_06_01 storeOldB)
    as (found & Hrun & _ & Hall).
  exists found. split; [exact Hrun|]. split; [|split; [vm_compute; reflexivity|]].
  - vm_compute in Hrun. injection Hrun as <-. vm_compute. reflexivity.
  - intros item Hitem. destruct (Hall item Hitem) as (_ & _ & Hout & _ & _ & _ & Hav).
    by split.
Defined.

Lemma loadLowStockItems_spec_witness :
  medicines storeCD !! "1" = Some paracetamol
  ∧ available d2024_06_01 (Medicine.id paracetamol) storeCD ≤ 10
  ∧ ∃ found,
      loadLowStockItems d2024_06_01 storeCD = (Ok found, storeCD)
      ∧ (λ item, (LowStockItem.totalStock item, LowStockItem.lowestStock item,
                  length (LowStockItem.batches item))) <$> found
        = [(0, 0, 0%nat)]
      ∧ ∃ item, item ∈ found ∧ LowStockItem.medicine item = paracetamol.
Proof.
  assert (H0 : medicines storeCD !! "1" = Some paracetamol) by (vm_compute; reflexivity).
  assert (H1 : available d2024_06_01 (Medicine.id paracetamol) storeCD ≤ 10)
    by (vm_compute; discriminate).
  destruct (loadLowStockItems_spec d2024_06_01 storeCD) as (found & Hrun & _ & _ & Hlisted).
  split; [exact H0|]. split; [exact H1|].
  exists found. split; [exact Hrun|]. split; [|exact (Hlisted _ _ H0 H1)].
  vm_compute in Hrun. injection Hrun as <-. vm_compute. reflexivity.
Defined.
